(** * node-mcp-server: the SSE session registry and the JSON-RPC call handler

    A shallow embedding of [server.js].  The two Express routes are modelled
    as state transformers over the module-level [sessions] map, and every
    observable action of a handler (a header, an HTTP reply, a chunk written
    to a push stream) is recorded, in program order, in an effect trace.

    Conventions of the embedding.
    - JavaScript values are the values that [express.json()] and the query
      parser can hand to the handler, plus [undefined] and [NaN], which the
      handler's own expressions can produce.
    - Numbers are the integer-valued doubles; [VNum z] stands for the double
      whose value is [z].  Fractions and infinities are outside the model.
    - Strings are byte strings (the UTF-8 text that Node writes to a socket).
    - An object is the list of its own properties in enumeration order; a
      property read takes the first binding of the key.
    - [console.log] diagnostics are not part of the trace. *)

From Stdlib Require Import ZArith Ascii String DecimalString.
From stdpp Require Import gmap strings list.

Set Warnings "-register-all".

Local Open Scope Z_scope.
Local Open Scope string_scope.

(** ** JavaScript values *)

Inductive value : Type :=
  | VUndef
  | VNull
  | VBool (b : bool)
  | VNum (z : Z)
  | VNaN
  | VStr (s : string)
  | VArr (items : list value)
  | VObj (props : list (string * value)).

Module JS.

(** The line feed of the template literals. *)
Definition nl : string := String "010"%char EmptyString.

(** ToBoolean: what [!v], [v || w] and [if (v)] test. *)
Definition truthy (v : value) : bool :=
  match v with
  | VUndef | VNull | VNaN => false
  | VBool b => b
  | VNum z => negb (Z.eqb z 0)
  | VStr s => negb (String.eqb s "")
  | VArr _ | VObj _ => true
  end.

(** [v || w]. *)
Definition or (v w : value) : value := if truthy v then v else w.

(** [v ?? w]. *)
Definition nullish (v : value) : bool :=
  match v with VUndef | VNull => true | _ => false end.

Definition coalesce (v w : value) : value := if nullish v then w else v.

(** Own-property lookup in a property list. *)
Fixpoint assoc (k : string) (props : list (string * value)) : option value :=
  match props with
  | [] => None
  | (k', v) :: rest => if String.eqb k k' then Some v else assoc k rest
  end.

(** [o.k] for the keys the handler reads ([jsonrpc], [id], [method],
    [params], [name], [arguments], [a], [b]): none of them is inherited
    from a prototype, so only a plain object can answer with something
    other than [undefined].  The handler reads a property of a value only
    behind a guard ([!rpc], [?.], [|| {}]) that excludes [null] and
    [undefined], where JavaScript would throw. *)
Definition prop (o : value) (k : string) : value :=
  match o with
  | VObj props => default VUndef (assoc k props)
  | _ => VUndef
  end.

(** [o?.k]. *)
Definition opt_prop (o : value) (k : string) : value :=
  if nullish o then VUndef else prop o k.

(** [v === "lit"] and the [case "lit":] test of a [switch]. *)
Definition is_str (v : value) (lit : string) : bool :=
  match v with
  | VStr s => String.eqb s lit
  | _ => false
  end.

(** Round to nearest, ties to even, at the 53 bits of a double's
    significand. *)
Definition round53 (z : Z) : Z :=
  let m := Z.abs z in
  if Z.ltb m (2 ^ 53) then z
  else
    let e := Z.log2 m - 52 in
    let q := m / 2 ^ e in
    let r := m mod 2 ^ e in
    let half := 2 ^ (e - 1) in
    let q' := if Z.ltb r half then q
              else if Z.ltb half r then q + 1
              else if Z.even q then q else q + 1 in
    Z.sgn z * (q' * 2 ^ e).

(** The decimal digits of an integer, with a minus sign when negative. *)
Definition decimal (z : Z) : string := NilZero.string_of_int (Z.to_int z).

Fixpoint zeros (n : nat) : string :=
  match n with
  | O => ""
  | S n' => String "0" (zeros n')
  end.

(** The digits JavaScript prints for the double [m >= 2^53]: the least
    number of digits [k] for which some [s] of [k] digits has [s * 10^e]
    rounding to [m], and among the two candidates around [m] the closer one
    (the even one on a tie).  The search goes from one digit ([e] one less
    than the number of digits of [m]) down to [e = 0], where [s] is [m]
    itself. *)
Fixpoint shortest (fuel : nat) (m e : Z) : Z * Z :=
  match fuel with
  | O => (m, 0)
  | S fuel' =>
      let p := 10 ^ e in
      let lo := m / p in
      let hi := lo + 1 in
      let ok_lo := Z.eqb (round53 (lo * p)) m in
      let ok_hi := Z.eqb (round53 (hi * p)) m in
      if ok_lo && ok_hi then
        if Z.ltb (m - lo * p) (hi * p - m) then (lo, e)
        else if Z.ltb (hi * p - m) (m - lo * p) then (hi, e)
        else if Z.even lo then (lo, e) else (hi, e)
      else if ok_lo then (lo, e)
      else if ok_hi then (hi, e)
      else shortest fuel' m (e - 1)
  end.

(** Number::toString on a double [m >= 2^53]: the digits of [shortest],
    followed by zeros while the number has at most 21 digits, and in
    exponent notation from there on. *)
Definition large_to_string (m : Z) : string :=
  let nd := String.length (decimal m) in
  let found := shortest nd m (Z.of_nat nd - 1) in
  let s := if Z.eqb (fst found mod 10) 0 then fst found / 10 else fst found in
  let e := if Z.eqb (fst found mod 10) 0 then snd found + 1 else snd found in
  let ds := decimal s in
  let n := Z.of_nat (String.length ds) + e in
  if Z.leb n 21 then ds ++ zeros (Z.to_nat e)
  else
    match ds with
    | EmptyString => ""
    | String d EmptyString => String d ("e+" ++ decimal (n - 1))
    | String d rest => String d ("." ++ rest ++ "e+" ++ decimal (n - 1))
    end.

(** Number::toString on an integer-valued double: below 2^53 every digit
    is significant and the text is the integer in decimal; from 2^53 on
    JavaScript prints the shortest digits that read back as the same
    double. *)
Definition number_to_string (z : Z) : string :=
  if Z.ltb (Z.abs z) (2 ^ 53) then decimal z
  else (if Z.ltb z 0 then "-" else "") ++ large_to_string (Z.abs z).

Fixpoint join (sep : string) (parts : list string) : string :=
  match parts with
  | [] => ""
  | [p] => p
  | p :: rest => p ++ sep ++ join sep rest
  end.

Fixpoint sequence {A : Type} (l : list (option A)) : option (list A) :=
  match l with
  | [] => Some []
  | None :: _ => None
  | Some x :: rest => option_map (cons x) (sequence rest)
  end.

(** ToString, as a template literal [`${v}`] applies it.  [None] is a
    thrown TypeError: a plain object converts through
    [Object.prototype.toString] unless it has an own [toString] property,
    which for parsed JSON is never callable, and then neither [toString]
    nor the inherited [valueOf] yields a primitive.  An array converts
    through [join(",")], which prints [null] and [undefined] elements as
    the empty string. *)
Fixpoint to_string (v : value) : option string :=
  match v with
  | VUndef => Some "undefined"
  | VNull => Some "null"
  | VBool true => Some "true"
  | VBool false => Some "false"
  | VNum z => Some (number_to_string z)
  | VNaN => Some "NaN"
  | VStr s => Some s
  | VArr items =>
      let fix each (l : list value) : list (option string) :=
        match l with
        | [] => []
        | x :: rest =>
            (if nullish x then Some "" else to_string x) :: each rest
        end in
      option_map (join ",") (sequence (each items))
  | VObj props =>
      match assoc "toString" props with
      | Some _ => None
      | None => Some "[object Object]"
      end
  end.

(** ToPrimitive with the default hint, as [+] applies it.  Objects and
    arrays end in their [toString], as above. *)
Definition to_primitive (v : value) : option value :=
  match v with
  | VArr _ | VObj _ => option_map VStr (to_string v)
  | _ => Some v
  end.

(** ToNumber on a primitive that is not a string; [None] is NaN. *)
Definition to_number (v : value) : option Z :=
  match v with
  | VNull => Some 0
  | VBool true => Some 1
  | VBool false => Some 0
  | VNum z => Some z
  | _ => None
  end.

Definition is_string (v : value) : bool :=
  match v with VStr _ => true | _ => false end.

(** [v + w]; [None] is a thrown TypeError.  The left operand is converted
    first. *)
Definition add (v w : value) : option value :=
  match to_primitive v with
  | None => None
  | Some pv =>
      match to_primitive w with
      | None => None
      | Some pw =>
          if is_string pv || is_string pw then
            match to_string pv, to_string pw with
            | Some sv, Some sw => Some (VStr (sv ++ sw))
            | _, _ => None
            end
          else
            match to_number pv, to_number pw with
            | Some x, Some y => Some (VNum (round53 (x + y)))
            | _, _ => Some VNaN
            end
      end
  end.

End JS.

(** ** JSON.stringify *)

Module JSON.

Definition dq : string := String "034"%char EmptyString.
Definition bs : string := String "092"%char EmptyString.

Definition hex_digit (n : nat) : string :=
  String (nth n (list_ascii_of_string "0123456789abcdef") "0"%char) EmptyString.

(** QuoteJSONString, one character at a time: the quote, the backslash and
    the control characters are escaped, everything else is copied. *)
Definition escape (c : ascii) : string :=
  let n := nat_of_ascii c in
  if Nat.eqb n 34 then bs ++ dq
  else if Nat.eqb n 92 then bs ++ bs
  else if Nat.eqb n 8 then bs ++ "b"
  else if Nat.eqb n 9 then bs ++ "t"
  else if Nat.eqb n 10 then bs ++ "n"
  else if Nat.eqb n 12 then bs ++ "f"
  else if Nat.eqb n 13 then bs ++ "r"
  else if Nat.ltb n 32 then
    bs ++ "u00" ++ hex_digit (Nat.div n 16) ++ hex_digit (Nat.modulo n 16)
  else String c EmptyString.

Fixpoint escape_all (s : string) : string :=
  match s with
  | EmptyString => ""
  | String c rest => escape c ++ escape_all rest
  end.

Definition quote (s : string) : string := dq ++ escape_all s ++ dq.

(** [JSON.stringify(v)]; [None] is the result [undefined].  A property
    whose value is [undefined] is left out of an object, an [undefined]
    element of an array is printed as [null], and so is [NaN].  Parsed JSON
    holds no callable [toJSON]. *)
Fixpoint stringify (v : value) : option string :=
  match v with
  | VUndef => None
  | VNull => Some "null"
  | VBool true => Some "true"
  | VBool false => Some "false"
  | VNum z => Some (JS.number_to_string z)
  | VNaN => Some "null"
  | VStr s => Some (quote s)
  | VArr items =>
      let fix elements (l : list value) : list string :=
        match l with
        | [] => []
        | x :: rest => default "null" (stringify x) :: elements rest
        end in
      Some ("[" ++ JS.join "," (elements items) ++ "]")
  | VObj props =>
      let fix members (l : list (string * value)) : list string :=
        match l with
        | [] => []
        | (k, x) :: rest =>
            match stringify x with
            | Some j => (quote k ++ ":" ++ j) :: members rest
            | None => members rest
            end
        end in
      Some ("{" ++ JS.join "," (members props) ++ "}")
  end.

(** [`${JSON.stringify(v)}`]. *)
Definition in_template (v : value) : string :=
  default "undefined" (stringify v).

End JSON.

(** ** The server state and what a handler can do *)

(** A response object of Express: the open stream of a [GET /sse-cursor]. *)
Definition handle : Type := nat.

(** The values of the [sessions] map: [{ sseRes, initialized }]. *)
Record session : Type := Session {
  sseRes : option handle;
  initialized : bool
}.

(** The module state: the [sessions] map, the live connections of
    [/sse-cursor] (each with the [sessionId] its heartbeat timer and its
    [close] listener have captured), and the next fresh response object. *)
Record server : Type := Server {
  sessions : gmap string session;
  listeners : gmap handle string;
  next_handle : handle
}.

Inductive effect : Type :=
  | SetHeader (h : handle) (name val : string)
  | HttpJson (status : Z) (body : value)
  | SseWrite (h : handle) (chunk : string).

(** What one run of a handler leaves behind: the state, the effects in
    program order, and whether the handler returned ([completed = false]: it
    threw a TypeError, which Express turns into its own error response). *)
Record outcome : Type := Outcome {
  final : server;
  trace : list effect;
  completed : bool
}.

Definition initial : server :=
  {| sessions := ∅; listeners := ∅; next_handle := O |}.

(** [sessions.get(key)]: the keys of the map are strings, so any other
    value finds nothing. *)
Definition sessions_get (st : server) (key : value) : option (string * session) :=
  match key with
  | VStr sid => (fun sd => (sid, sd)) <$> sessions st !! sid
  | _ => None
  end.

(** [sessionData.initialized = true] on the object stored under [sid]. *)
Definition set_initialized (st : server) (sid : string) (sd : session) : server :=
  {| sessions := <[sid := {| sseRes := sseRes sd; initialized := true |}]> (sessions st);
     listeners := listeners st;
     next_handle := next_handle st |}.

(** ** GET /sse-cursor, its heartbeat and its close listener *)

(** The handler of [GET /sse-cursor]; [uuid] is what [uuidv4()] returned. *)
Definition get_sse_cursor (st : server) (uuid : string) : outcome :=
  let res := next_handle st in
  {| final :=
       {| sessions := <[uuid := {| sseRes := Some res; initialized := false |}]> (sessions st);
          listeners := <[res := uuid]> (listeners st);
          next_handle := S res |};
     trace :=
       [ SetHeader res "Content-Type" "text/event-stream";
         SetHeader res "Cache-Control" "no-cache";
         SetHeader res "Connection" "keep-alive";
         SseWrite res ("event: endpoint" ++ JS.nl);
         SseWrite res ("data: /message?sessionId=" ++ uuid ++ JS.nl ++ JS.nl) ];
     completed := true |}.

(** One firing of the [setInterval] callback of connection [res]; [now] is
    [Date.now()].  The timer fires only until [clearInterval]. *)
Definition heartbeat (st : server) (res : handle) (now : Z) : outcome :=
  match listeners st !! res with
  | Some _ =>
      {| final := st;
         trace := [ SseWrite res ("event: heartbeat" ++ JS.nl ++ "data: "
                                  ++ JS.number_to_string now ++ JS.nl ++ JS.nl) ];
         completed := true |}
  | None => {| final := st; trace := []; completed := true |}
  end.

(** The [close] listener of connection [res]: [clearInterval(hb)] and
    [sessions.delete(sessionId)] with the captured [sessionId]. *)
Definition on_close (st : server) (res : handle) : outcome :=
  match listeners st !! res with
  | Some sessionId =>
      {| final :=
           {| sessions := delete sessionId (sessions st);
              listeners := delete res (listeners st);
              next_handle := next_handle st |};
         trace := [];
         completed := true |}
  | None => {| final := st; trace := []; completed := true |}
  end.

(** ** POST /message *)

Definition missing_session_body : value :=
  VObj [ ("error", VStr "Missing sessionId in ?sessionId=...") ].

Definition unknown_session_body : value :=
  VObj [ ("error", VStr "No SSE session with that sessionId") ].

(** The body of the synchronous rejection, with [id: rpc?.id ?? null]. *)
Definition invalid_request_body (rpc : value) : value :=
  VObj [ ("jsonrpc", VStr "2.0");
         ("id", JS.coalesce (JS.opt_prop rpc "id") VNull);
         ("error", VObj [ ("code", VNum (-32600));
                          ("message", VStr "Invalid JSON-RPC request") ]) ].

(** The minimal HTTP ack; [method] is [`${rpc.method}`]. *)
Definition ack_body (rpc : value) (method : string) : value :=
  VObj [ ("jsonrpc", VStr "2.0");
         ("id", JS.prop rpc "id");
         ("result", VObj [ ("ack", VStr ("Received " ++ method)) ]) ].

Definition initCaps (rpc : value) : value :=
  VObj [ ("jsonrpc", VStr "2.0");
         ("id", JS.prop rpc "id");
         ("result",
          VObj [ ("protocolVersion", VStr "2024-11-05");
                 ("capabilities",
                  VObj [ ("tools", VObj [ ("listChanged", VBool true) ]);
                         ("resources", VObj [ ("subscribe", VBool true);
                                              ("listChanged", VBool true) ]);
                         ("prompts", VObj [ ("listChanged", VBool true) ]);
                         ("logging", VObj []) ]);
                 ("serverInfo",
                  VObj [ ("name", VStr "final-capabilities-server");
                         ("version", VStr "1.0.0") ]) ]) ].

Definition toolsMsg (rpc : value) : value :=
  VObj [ ("jsonrpc", VStr "2.0");
         ("id", JS.prop rpc "id");
         ("result",
          VObj [ ("tools",
                  VArr [ VObj [ ("name", VStr "addNumbersTool");
                                ("description",
                                 VStr "Adds two numbers 'a' and 'b' and returns their sum.");
                                ("inputSchema",
                                 VObj [ ("type", VStr "object");
                                        ("properties",
                                         VObj [ ("a", VObj [ ("type", VStr "number") ]);
                                                ("b", VObj [ ("type", VStr "number") ]) ]);
                                        ("required", VArr [ VStr "a"; VStr "b" ]) ]) ] ]);
                 ("count", VNum 1) ]) ].

Definition callMsg (rpc : value) (text : string) : value :=
  VObj [ ("jsonrpc", VStr "2.0");
         ("id", JS.prop rpc "id");
         ("result",
          VObj [ ("content", VArr [ VObj [ ("type", VStr "text");
                                           ("text", VStr text) ] ]) ]) ].

(** [callErr] and [errObj]: the two asynchronous errors, both [-32601]. *)
Definition not_found_error (rpc : value) (message : string) : value :=
  VObj [ ("jsonrpc", VStr "2.0");
         ("id", JS.prop rpc "id");
         ("error", VObj [ ("code", VNum (-32601));
                          ("message", VStr message) ]) ].

(** The pair of writes that every branch of the [switch] uses:
    [event: message] and then the [data:] line of the stringified object. *)
Definition sse_message (sseRes : handle) (obj : value) : list effect :=
  [ SseWrite sseRes ("event: message" ++ JS.nl);
    SseWrite sseRes ("data: " ++ JSON.in_template obj ++ JS.nl ++ JS.nl) ].

(** The [tools/call] case, after the ack: the effects it adds, or [None]
    where a conversion throws before anything is written. *)
Definition tools_call (sseRes : handle) (rpc : value) : option (list effect) :=
  let toolName := JS.opt_prop (JS.prop rpc "params") "name" in
  let args := JS.or (JS.opt_prop (JS.prop rpc "params") "arguments") (VObj []) in
  if JS.is_str toolName "addNumbersTool" then
    match JS.add (JS.or (JS.prop args "a") (VNum 0)) (JS.or (JS.prop args "b") (VNum 0)) with
    | None => None
    | Some sum =>
        match JS.to_string (JS.prop args "a"),
              JS.to_string (JS.prop args "b"),
              JS.to_string sum with
        | Some a, Some b, Some s =>
            Some (sse_message sseRes
                    (callMsg rpc ("Sum of " ++ a ++ " + " ++ b ++ " = " ++ s)))
        | _, _, _ => None
        end
    end
  else
    match JS.to_string toolName with
    | Some name =>
        Some (sse_message sseRes
                (not_found_error rpc ("No such tool '" ++ name ++ "'")))
    | None => None
    end.

(** The body of the handler from [const rpc = req.body] on, for the
    session [sessionData] found under [sid]: the validation, the ack, and
    the [switch] over [rpc.method]. *)
Definition answer (st : server) (sid : string) (sessionData : session) (rpc : value) : outcome :=
  if negb (JS.truthy rpc)
     || negb (JS.is_str (JS.prop rpc "jsonrpc") "2.0")
     || negb (JS.truthy (JS.prop rpc "method"))
  then
    {| final := st;
       trace := [ HttpJson 200 (invalid_request_body rpc) ];
       completed := true |}
  else
    match JS.to_string (JS.prop rpc "method") with
    | None => {| final := st; trace := []; completed := false |}
    | Some method =>
        let ack := HttpJson 200 (ack_body rpc method) in
        match sseRes sessionData with
        | None => {| final := st; trace := [ ack ]; completed := true |}
        | Some sseRes =>
            if JS.is_str (JS.prop rpc "method") "initialize" then
              {| final := set_initialized st sid sessionData;
                 trace := ack :: sse_message sseRes (initCaps rpc);
                 completed := true |}
            else if JS.is_str (JS.prop rpc "method") "tools/list" then
              {| final := st;
                 trace := ack :: sse_message sseRes (toolsMsg rpc);
                 completed := true |}
            else if JS.is_str (JS.prop rpc "method") "tools/call" then
              match tools_call sseRes rpc with
              | Some writes =>
                  {| final := st; trace := ack :: writes; completed := true |}
              | None => {| final := st; trace := [ ack ]; completed := false |}
              end
            else if JS.is_str (JS.prop rpc "method") "notifications/initialized" then
              {| final := st; trace := [ ack ]; completed := true |}
            else
              {| final := st;
                 trace := ack :: sse_message sseRes
                            (not_found_error rpc
                               ("Method '" ++ method ++ "' not recognized"));
                 completed := true |}
        end
    end.

(** The handler of [POST /message]: [sessionId] is [req.query.sessionId]
    and [rpc] is [req.body]. *)
Definition post_message (st : server) (sessionId rpc : value) : outcome :=
  if negb (JS.truthy sessionId) then
    {| final := st; trace := [ HttpJson 400 missing_session_body ]; completed := true |}
  else
    match sessions_get st sessionId with
    | None =>
        {| final := st; trace := [ HttpJson 404 unknown_session_body ]; completed := true |}
    | Some (sid, sessionData) => answer st sid sessionData rpc
    end.

(** ** The server as a transition system *)

Inductive request : Type :=
  | GetSseCursor (uuid : string)
  | Heartbeat (res : handle) (now : Z)
  | Close (res : handle)
  | PostMessage (sessionId rpc : value).

Definition handle_request (st : server) (r : request) : outcome :=
  match r with
  | GetSseCursor uuid => get_sse_cursor st uuid
  | Heartbeat res now => heartbeat st res now
  | Close res => on_close st res
  | PostMessage sessionId rpc => post_message st sessionId rpc
  end.

Fixpoint run (st : server) (rs : list request) : server :=
  match rs with
  | [] => st
  | r :: rest => run (final (handle_request st r)) rest
  end.

(** [uuidv4()] returns the 36-character text of a UUID; the other requests
    are unconstrained. *)
Definition request_ok (r : request) : Prop :=
  match r with
  | GetSseCursor uuid => String.length uuid = 36%nat
  | _ => True
  end.

(** The states the process can be in: [initial] and what requests make
    of it. *)
Inductive reachable : server -> Prop :=
  | reachable_initial : reachable initial
  | reachable_step st r :
      reachable st -> request_ok r -> reachable (final (handle_request st r)).

(** ** Vocabulary of the statements *)

(** Every registered session holds a stream and is filed under a UUID, and
    so is every captured [sessionId]. *)
Record sessions_wf (st : server) : Prop := {
  wf_stream : forall sid sd, sessions st !! sid = Some sd -> is_Some (sseRes sd);
  wf_key : forall sid sd, sessions st !! sid = Some sd -> String.length sid = 36%nat;
  wf_captured : forall res sid, listeners st !! res = Some sid -> String.length sid = 36%nat
}.

Definition example_uuid : string := "123e4567-e89b-42d3-a456-426614174000".

Definition example_server : server := final (get_sse_cursor initial example_uuid).

(** An envelope [{ jsonrpc: "2.0", id: 7, method, params }]. *)
Definition envelope (method : value) (params : value) : value :=
  VObj [ ("jsonrpc", VStr "2.0"); ("id", VNum 7); ("method", method); ("params", params) ].

Definition is_sse_write (e : effect) : bool :=
  match e with SseWrite _ _ => true | _ => false end.

(** The chunks written to push streams, in order. *)
Definition sse_writes (t : list effect) : list effect := List.filter is_sse_write t.

(** C2, as the claim states it: body present, tag ["2.0"], [method] not
    absent, on a registered session, and the reply is a success body with
    the envelope's id. *)
Definition ack_for_every_present_method : Prop :=
  forall (st : server) (sid : string) (sd : session) (rpc : value),
    reachable st -> sessions st !! sid = Some sd ->
    rpc <> VUndef -> JS.prop rpc "jsonrpc" = VStr "2.0" -> JS.prop rpc "method" <> VUndef ->
    exists result rest,
      trace (post_message st (VStr sid) rpc)
      = HttpJson 200 (VObj [ ("jsonrpc", VStr "2.0"); ("id", JS.prop rpc "id");
                             ("result", result) ]) :: rest.

(** An argument of [addNumbersTool] as the tool's schema has it, a number,
    or missing.  The numbers are the safe integers, below 2^53 in magnitude,
    which doubles hold exactly and print in plain decimal.
    [argument v x shown]: [v || 0] is the number [x], and [`${v}`] is
    [shown]. *)
Inductive argument : value -> Z -> string -> Prop :=
  | argument_missing : argument VUndef 0 "undefined"
  | argument_number z :
      (Z.abs z < 2 ^ 53)%Z -> argument (VNum z) z (JS.number_to_string z).

Definition add_call (arguments : value) : value :=
  envelope (VStr "tools/call")
    (VObj [ ("name", VStr "addNumbersTool"); ("arguments", arguments) ]).

Definition sum_event (text : string) : list effect :=
  [ HttpJson 200
      (VObj [ ("jsonrpc", VStr "2.0"); ("id", VNum 7);
              ("result", VObj [ ("ack", VStr "Received tools/call") ]) ]);
    SseWrite O ("event: message" ++ JS.nl);
    SseWrite O
      ("data: "
       ++ JSON.in_template
            (VObj [ ("jsonrpc", VStr "2.0"); ("id", VNum 7);
                    ("result",
                     VObj [ ("content",
                             VArr [ VObj [ ("type", VStr "text");
                                           ("text", VStr text) ] ]) ]) ])
       ++ JS.nl ++ JS.nl) ].

(** The registry of [st] with the session under [sid] replaced by one that
    holds [stream] and has its flag at [flag]. *)
Definition with_flag (st : server) (sid : string) (stream : option handle) (flag : bool) : server :=
  {| sessions := <[sid := {| sseRes := stream; initialized := flag |}]> (sessions st);
     listeners := listeners st;
     next_handle := next_handle st |}.

(** Every stream held by a registered session belongs to a connection that
    is still open and whose [close] listener captured that session's id, and
    every open connection uses a response object that has been handed out. *)
Record streams_wf (st : server) : Prop := {
  wf_live : forall k sd h,
    sessions st !! k = Some sd -> sseRes sd = Some h -> listeners st !! h = Some k;
  wf_fresh : forall h k, listeners st !! h = Some k -> (h < next_handle st)%nat
}.

(** No character of [s] is a control character (code below 32), so none is
    a line feed or a carriage return. *)
Fixpoint no_control (s : string) : bool :=
  match s with
  | EmptyString => true
  | String c rest => Nat.leb 32 (nat_of_ascii c) && no_control rest
  end.

(** What a call on the session that holds stream [h] may do: reply with
    status 200, or write a chunk to [h]. *)
Definition reply_or_write_to (h : handle) (e : effect) : Prop :=
  (exists body, e = HttpJson 200 body) \/ (exists chunk, e = SseWrite h chunk).

(** An operand of the tool's sum, [v || 0]: a falsy value ([undefined],
    [null], [false], [0], [NaN], the empty string) stands for 0, a safe
    integer for itself. *)
Inductive operand : value -> Z -> Prop :=
  | operand_falsy v : JS.truthy v = false -> operand v 0
  | operand_number z : (Z.abs z < 2 ^ 53)%Z -> operand (VNum z) z.

(** C4, as the claim states it: whatever the requested name is, if it is
    not ["addNumbersTool"] a [-32601] error is written to the session's
    stream. *)
Definition every_unknown_name_is_reported : Prop :=
  forall (st : server) (sid : string) (sd : session) (rpc : value),
    reachable st -> sessions st !! sid = Some sd ->
    JS.prop rpc "jsonrpc" = VStr "2.0" -> JS.prop rpc "method" = VStr "tools/call" ->
    JS.opt_prop (JS.prop rpc "params") "name" <> VStr "addNumbersTool" ->
    exists h message,
      In (SseWrite h ("data: " ++ JSON.in_template (not_found_error rpc message)
                      ++ JS.nl ++ JS.nl))
         (trace (post_message st (VStr sid) rpc)).

(** C5, as the claim states it: whatever the arguments are, a call of
    ["addNumbersTool"] has a text block written to the session's stream. *)
Definition every_add_call_gets_a_text_result : Prop :=
  forall (st : server) (sid : string) (sd : session) (rpc : value),
    reachable st -> sessions st !! sid = Some sd ->
    JS.prop rpc "jsonrpc" = VStr "2.0" -> JS.prop rpc "method" = VStr "tools/call" ->
    JS.opt_prop (JS.prop rpc "params") "name" = VStr "addNumbersTool" ->
    exists h text,
      In (SseWrite h ("data: " ++ JSON.in_template (callMsg rpc text) ++ JS.nl ++ JS.nl))
         (trace (post_message st (VStr sid) rpc)).

Definition other_uuid : string := "9b2cbd7e-4f0a-4c1d-8e55-0a1b2c3d4e5f".

(** A second stream opened after the first. *)
Definition two_stream_server : server := final (get_sse_cursor example_server other_uuid).

(** The first stream of [example_server] closed again. *)
Definition closed_server : server := final (on_close example_server O).

(** [example_server] after an [initialize] call. *)
Definition initialized_server : server :=
  final (post_message example_server (VStr example_uuid) (envelope (VStr "initialize") VUndef)).

(** ** Basic facts about the JavaScript primitives *)

Lemma is_str_spec (v : value) (lit : string) :
  JS.is_str v lit = true <-> v = VStr lit.
Proof.
  destruct v; simpl; try (split; [discriminate | congruence]).
  rewrite String.eqb_eq. split; congruence.
Qed.

Lemma is_str_refl (lit : string) : JS.is_str (VStr lit) lit = true.
Proof. by apply is_str_spec. Qed.

Lemma is_str_false (v : value) (lit : string) :
  v <> VStr lit -> JS.is_str v lit = false.
Proof.
  intros Hne. destruct (JS.is_str v lit) eqn:E; [|done].
  by apply is_str_spec in E.
Qed.

Lemma round53_small (z : Z) : (Z.abs z < 2 ^ 53)%Z -> JS.round53 z = z.
Proof.
  intros Hz. unfold JS.round53.
  destruct (Z.ltb_spec (Z.abs z) (2 ^ 53)); [done | lia].
Qed.

Lemma uuid_truthy (s : string) : String.length s = 36%nat -> JS.truthy (VStr s) = true.
Proof. by destruct s. Qed.

Lemma sessions_get_Some (st : server) (key : value) (sid : string) (sd : session) :
  sessions_get st key = Some (sid, sd) <-> key = VStr sid /\ sessions st !! sid = Some sd.
Proof.
  destruct key as [| | | | |k| |]; simpl; try (split; [discriminate | intros [? _]; discriminate]).
  destruct (sessions st !! k) as [sd'|] eqn:Hl; simpl; split.
  - intros [= <- <-]. done.
  - intros [[= <-] Hl']. rewrite Hl' in Hl. by simplify_eq.
  - discriminate.
  - intros [[= <-] Hl']. rewrite Hl' in Hl. discriminate.
Qed.

Lemma sessions_get_str (st : server) (sid : string) (sd : session) :
  sessions st !! sid = Some sd -> sessions_get st (VStr sid) = Some (sid, sd).
Proof. intros Hl. by apply sessions_get_Some. Qed.

(** ** What [POST /message] can do to the state *)

(** The handler leaves the state alone, except in the [initialize] case,
    where it sets the flag of the session it was addressed to. *)
Lemma post_message_final (st : server) (sessionId rpc : value) :
  final (post_message st sessionId rpc) = st
  \/ exists sid sd h,
       sessionId = VStr sid /\ sessions st !! sid = Some sd
       /\ sseRes sd = Some h
       /\ JS.prop rpc "method" = VStr "initialize"
       /\ final (post_message st sessionId rpc) = set_initialized st sid sd.
Proof.
  unfold post_message.
  destruct (negb (JS.truthy sessionId)); [by left|].
  destruct (sessions_get st sessionId) as [[sid sd]|] eqn:Hget; [|by left].
  apply sessions_get_Some in Hget as [-> Hl]. unfold answer.
  destruct (_ || _); [by left|].
  destruct (JS.to_string _); [|by left].
  destruct (sseRes sd) as [h|] eqn:Hs; [|by left].
  destruct (JS.is_str _ "initialize") eqn:Hinit.
  - right. exists sid, sd, h. apply is_str_spec in Hinit. by repeat split.
  - repeat (destruct (JS.is_str _ _)); try by left.
    destruct (tools_call _ _); by left.
Qed.

(** ** An invariant of the reachable states *)

Lemma initial_wf : sessions_wf initial.
Proof. split; intros *; simpl; by rewrite lookup_empty. Qed.

Lemma set_initialized_wf (st : server) (sid : string) (sd : session) :
  sessions st !! sid = Some sd -> sessions_wf st -> sessions_wf (set_initialized st sid sd).
Proof.
  intros Hl [Hstream Hkey Hcap]. split; simpl.
  - intros k sd'. destruct (decide (sid = k)) as [<-|Hne].
    + rewrite lookup_insert_eq. intros [= <-]. simpl. eauto.
    + rewrite lookup_insert_ne by done. eauto.
  - intros k sd'. destruct (decide (sid = k)) as [<-|Hne].
    + intros _. eauto.
    + rewrite lookup_insert_ne by done. eauto.
  - done.
Qed.

Lemma handle_request_wf (st : server) (r : request) :
  request_ok r -> sessions_wf st -> sessions_wf (final (handle_request st r)).
Proof.
  intros Hok Hwf. destruct r as [uuid|res now|res|sessionId rpc]; simpl.
  - destruct Hwf as [Hstream Hkey Hcap]. simpl in Hok. split; simpl.
    + intros k sd. destruct (decide (uuid = k)) as [<-|Hne].
      * rewrite lookup_insert_eq. intros [= <-]. simpl. eauto.
      * rewrite lookup_insert_ne by done. eauto.
    + intros k sd. destruct (decide (uuid = k)) as [<-|Hne]; [done|].
      rewrite lookup_insert_ne by done. eauto.
    + intros h k. destruct (decide (next_handle st = h)) as [<-|Hne].
      * rewrite lookup_insert_eq. by intros [= <-].
      * rewrite lookup_insert_ne by done. eauto.
  - unfold heartbeat. by destruct (listeners st !! res).
  - unfold on_close. destruct (listeners st !! res) as [captured|]; [|done].
    destruct Hwf as [Hstream Hkey Hcap]. split; simpl.
    + intros k sd Hl. apply lookup_delete_Some in Hl as [_ Hl]. eauto.
    + intros k sd Hl. apply lookup_delete_Some in Hl as [_ Hl]. eauto.
    + intros h k Hl. apply lookup_delete_Some in Hl as [_ Hl]. eauto.
  - destruct (post_message_final st sessionId rpc)
      as [->|(sid & sd & h & _ & Hl & _ & _ & ->)]; [done|].
    by apply set_initialized_wf.
Qed.

Lemma reachable_wf (st : server) : reachable st -> sessions_wf st.
Proof.
  induction 1 as [|st r _ IH Hok]; [apply initial_wf | by apply handle_request_wf].
Qed.

Lemma prop_str_truthy (rpc : value) (k s : string) :
  JS.prop rpc k = VStr s -> JS.truthy rpc = true.
Proof. by destruct rpc. Qed.

(** ** A call on a registered session, method by method *)

Section Registered.

Context (st : server) (sid : string) (sd : session).
Hypothesis Hreach : reachable st.
Hypothesis Hsession : sessions st !! sid = Some sd.

(** A session found in a reachable state is filed under a truthy key and
    holds a stream: the handler gets past both session checks. *)
Lemma registered_session :
  JS.truthy (VStr sid) = true
  /\ sessions_get st (VStr sid) = Some (sid, sd)
  /\ exists h, sseRes sd = Some h.
Proof.
  destruct (reachable_wf st Hreach) as [Hstream Hkey _].
  split; [|split].
  - apply uuid_truthy. eauto.
  - by apply sessions_get_str.
  - destruct (Hstream sid sd Hsession) as [h Hh]. eauto.
Qed.

Lemma post_message_registered (rpc : value) :
  post_message st (VStr sid) rpc = answer st sid sd rpc.
Proof.
  destruct registered_session as (Ht & Hget & _).
  unfold post_message. by rewrite Ht, Hget.
Qed.

(** Past the validation, when [rpc.method] is the string [method]. *)
Lemma answer_string_method (rpc : value) (method : string) (h : handle) :
  JS.prop rpc "jsonrpc" = VStr "2.0" ->
  JS.prop rpc "method" = VStr method -> method <> "" ->
  sseRes sd = Some h ->
  post_message st (VStr sid) rpc
  = let ack := HttpJson 200 (ack_body rpc method) in
    if String.eqb method "initialize" then
      {| final := set_initialized st sid sd;
         trace := ack :: sse_message h (initCaps rpc);
         completed := true |}
    else if String.eqb method "tools/list" then
      {| final := st; trace := ack :: sse_message h (toolsMsg rpc); completed := true |}
    else if String.eqb method "tools/call" then
      match tools_call h rpc with
      | Some writes => {| final := st; trace := ack :: writes; completed := true |}
      | None => {| final := st; trace := [ ack ]; completed := false |}
      end
    else if String.eqb method "notifications/initialized" then
      {| final := st; trace := [ ack ]; completed := true |}
    else
      {| final := st;
         trace := ack :: sse_message h
                    (not_found_error rpc ("Method '" ++ method ++ "' not recognized"));
         completed := true |}.
Proof.
  intros Htag Hmeth Hne Hs.
  rewrite post_message_registered. unfold answer.
  rewrite (prop_str_truthy _ _ _ Htag), Htag, Hmeth, Hs. simpl.
  destruct (String.eqb_spec method "") as [->|_]; done.
Qed.


Lemma post_message_tools_list (rpc : value) :
  JS.prop rpc "jsonrpc" = VStr "2.0" ->
  JS.prop rpc "method" = VStr "tools/list" ->
  exists h, sseRes sd = Some h
    /\ post_message st (VStr sid) rpc
       = {| final := st;
            trace := HttpJson 200 (ack_body rpc "tools/list") :: sse_message h (toolsMsg rpc);
            completed := true |}.
Proof.
  intros Htag Hmeth. destruct registered_session as (_ & _ & h & Hs).
  exists h. split; [done|]. by rewrite (answer_string_method rpc "tools/list" h).
Qed.

(** A [tools/call] envelope with the right tag: the handler acks and hands
    over to the [tools/call] case. *)
Lemma post_message_tools_call (rpc : value) :
  JS.prop rpc "jsonrpc" = VStr "2.0" ->
  JS.prop rpc "method" = VStr "tools/call" ->
  exists h, sseRes sd = Some h
    /\ post_message st (VStr sid) rpc
       = match tools_call h rpc with
         | Some writes =>
             {| final := st;
                trace := HttpJson 200 (ack_body rpc "tools/call") :: writes;
                completed := true |}
         | None =>
             {| final := st;
                trace := [ HttpJson 200 (ack_body rpc "tools/call") ];
                completed := false |}
         end.
Proof.
  intros Htag Hmeth. destruct registered_session as (_ & _ & h & Hs).
  exists h. split; [done|]. by rewrite (answer_string_method rpc "tools/call" h).
Qed.

(** [notifications/initialized] is acked and nothing is written. *)
Lemma post_message_notification (rpc : value) :
  JS.prop rpc "jsonrpc" = VStr "2.0" ->
  JS.prop rpc "method" = VStr "notifications/initialized" ->
  post_message st (VStr sid) rpc
  = {| final := st;
       trace := [ HttpJson 200 (ack_body rpc "notifications/initialized") ];
       completed := true |}.
Proof.
  intros Htag Hmeth. destruct registered_session as (_ & _ & h & Hs).
  by rewrite (answer_string_method rpc "notifications/initialized" h).
Qed.

End Registered.

(** ** A concrete server: one stream opened on a fresh process *)

Lemma example_server_reachable : reachable example_server.
Proof.
  apply (reachable_step initial (GetSseCursor example_uuid)); [constructor | reflexivity].
Qed.

Lemma example_session :
  sessions example_server !! example_uuid = Some {| sseRes := Some O; initialized := false |}.
Proof. unfold example_server. simpl. apply lookup_insert_eq. Qed.

Lemma example_listener : listeners example_server !! O = Some example_uuid.
Proof. unfold example_server. simpl. apply lookup_insert_eq. Qed.

(** ** Effects by kind *)

Lemma sse_writes_message (h : handle) (obj : value) :
  sse_writes (sse_message h obj) = sse_message h obj.
Proof. done. Qed.

Lemma tools_call_writes (h : handle) (rpc : value) (writes : list effect) :
  tools_call h rpc = Some writes ->
  exists obj, writes = sse_message h obj
    /\ ((exists text, obj = callMsg rpc text) \/ (exists message, obj = not_found_error rpc message)).
Proof.
  unfold tools_call. intros H. repeat case_match; simplify_eq; eauto.
Qed.

(** What the handler writes to a stream once it is past the session
    checks: nothing, or one [message] event on the session's own stream,
    built from one of the four response objects. *)
Lemma answer_trace (st : server) (sid : string) (sd : session) (rpc : value) :
  (trace (answer st sid sd rpc) = [] /\ completed (answer st sid sd rpc) = false)
  \/ (trace (answer st sid sd rpc) = [ HttpJson 200 (invalid_request_body rpc) ])
  \/ exists method,
       JS.to_string (JS.prop rpc "method") = Some method
       /\ (trace (answer st sid sd rpc) = [ HttpJson 200 (ack_body rpc method) ]
           \/ exists h obj,
                sseRes sd = Some h
                /\ trace (answer st sid sd rpc)
                   = HttpJson 200 (ack_body rpc method) :: sse_message h obj
                /\ (obj = initCaps rpc \/ obj = toolsMsg rpc
                    \/ (exists text, obj = callMsg rpc text)
                    \/ (exists message, obj = not_found_error rpc message))).
Proof.
  unfold answer.
  destruct (_ || _); [by right; left|].
  destruct (JS.to_string _) as [method|]; [|by left].
  right; right. exists method. split; [done|].
  destruct (sseRes sd) as [h|]; [|by left].
  repeat (destruct (JS.is_str _ _)); simpl.
  - right. exists h, (initCaps rpc). eauto.
  - right. exists h, (toolsMsg rpc). eauto 6.
  - destruct (tools_call h rpc) as [writes|] eqn:Hcall; [|by left].
    apply tools_call_writes in Hcall as (obj & -> & Hobj).
    right. exists h, obj. eauto 6.
  - by left.
  - right. exists h, (not_found_error rpc ("Method '" ++ method ++ "' not recognized")).
    eauto 8.
Qed.

(** ** The claims *)

(** C1.  Whatever the call, the chunks that [POST /message] writes to a push
    stream are either none at all or exactly one [message] event on the
    addressed session's stream, whose object is one of the four asynchronous
    responses ([initCaps], [toolsMsg], [callMsg], or a [-32601] error) and
    whose [id] is [rpc.id] itself: a missing id stays missing, nothing is
    defaulted or regenerated. *)
Theorem async_responses_carry_request_id (st : server) (sessionId rpc : value) :
  let t := trace (post_message st sessionId rpc) in
  sse_writes t = []
  \/ exists sid sd h obj,
       sessions_get st sessionId = Some (sid, sd)
       /\ sseRes sd = Some h
       /\ sse_writes t = sse_message h obj
       /\ (obj = initCaps rpc \/ obj = toolsMsg rpc
           \/ (exists text, obj = callMsg rpc text)
           \/ (exists message, obj = not_found_error rpc message))
       /\ JS.prop obj "id" = JS.prop rpc "id".
Proof.
  simpl. unfold post_message.
  destruct (negb (JS.truthy sessionId)); [by left|].
  destruct (sessions_get st sessionId) as [[sid sd]|] eqn:Hget; [|by left].
  destruct (answer_trace st sid sd rpc)
    as [[-> _]|[->|(method & _ & [->|(h & obj & Hs & -> & Hobj)])]];
    try by left.
  right. exists sid, sd, h, obj. repeat split; try done.
  destruct Hobj as [->|[->|[[text ->]|[message ->]]]]; reflexivity.
Qed.

(** C2 fails on [{ jsonrpc: "2.0", id: 7, method: "" }]: the method is
    there, but [!rpc.method] holds for the empty string, and the reply is
    the [-32600] error. *)
Lemma empty_method_is_rejected :
  let rpc := envelope (VStr "") VUndef in
  rpc <> VUndef
  /\ JS.prop rpc "jsonrpc" = VStr "2.0"
  /\ JS.prop rpc "method" <> VUndef
  /\ trace (post_message example_server (VStr example_uuid) rpc)
     = [ HttpJson 200 (VObj [ ("jsonrpc", VStr "2.0"); ("id", VNum 7);
                              ("error", VObj [ ("code", VNum (-32600));
                                               ("message", VStr "Invalid JSON-RPC request") ]) ]) ]
  /\ ~ ack_for_every_present_method.
Proof.
  simpl. split; [done|]. split; [done|]. split; [done|].
  assert (Ht : trace (post_message example_server (VStr example_uuid)
                        (envelope (VStr "") VUndef))
               = [ HttpJson 200 (invalid_request_body (envelope (VStr "") VUndef)) ]).
  { rewrite (post_message_registered _ _ _ example_server_reachable example_session).
    reflexivity. }
  split; [exact Ht|].
  intros Hclaim.
  destruct (Hclaim example_server example_uuid _ (envelope (VStr "") VUndef)
              example_server_reachable example_session)
    as (result & rest & Heq); [done..|].
  rewrite Ht in Heq. discriminate Heq.
Qed.

(** C2, amended.  On a registered session, an envelope that passes the
    handler's own test (a truthy body, the tag ["2.0"], a truthy [method]) and
    whose method converts to text [m], as every non-empty string does, is
    answered first and once over HTTP, with status 200 and the body
    [{ jsonrpc: "2.0", id: rpc.id, result: { ack: "Received " + m } }]. *)
Theorem ack_carries_request_id
    (st : server) (sid : string) (sd : session) (rpc : value) (m : string) :
  reachable st -> sessions st !! sid = Some sd ->
  JS.truthy rpc = true ->
  JS.prop rpc "jsonrpc" = VStr "2.0" ->
  JS.truthy (JS.prop rpc "method") = true ->
  JS.to_string (JS.prop rpc "method") = Some m ->
  exists writes,
    trace (post_message st (VStr sid) rpc)
    = HttpJson 200 (VObj [ ("jsonrpc", VStr "2.0"); ("id", JS.prop rpc "id");
                           ("result", VObj [ ("ack", VStr ("Received " ++ m)) ]) ]) :: writes
    /\ sse_writes writes = writes.
Proof.
  intros Hr Hl Hrpc Htag Hmeth Hm.
  rewrite (post_message_registered _ _ _ Hr Hl).
  destruct (answer_trace st sid sd rpc)
    as [[Ht Hc]|[Ht|(method & Hm' & [Ht|(h & obj & _ & Ht & _)])]].
  - unfold answer in Ht. rewrite Hrpc, Htag, Hmeth, Hm in Ht. simpl in Ht.
    repeat case_match; discriminate.
  - unfold answer in Ht. rewrite Hrpc, Htag, Hmeth, Hm in Ht. simpl in Ht.
    repeat case_match; discriminate.
  - rewrite Hm in Hm'. injection Hm' as <-. exists []. by rewrite Ht.
  - rewrite Hm in Hm'. injection Hm' as <-. exists (sse_message h obj). by rewrite Ht.
Qed.

Lemma ack_carries_request_id_witness :
  exists writes,
    trace (post_message example_server (VStr example_uuid) (envelope (VStr "tools/list") VUndef))
    = HttpJson 200 (VObj [ ("jsonrpc", VStr "2.0"); ("id", VNum 7);
                           ("result", VObj [ ("ack", VStr "Received tools/list") ]) ]) :: writes
    /\ sse_writes writes = writes.
Proof.
  apply (ack_carries_request_id example_server example_uuid _
           (envelope (VStr "tools/list") VUndef) "tools/list"
           example_server_reachable example_session);
    reflexivity.
Defined.

(** C3.  On a registered session, an envelope that is absent, whose tag is
    not the string ["2.0"] (missing included), or whose [method] is absent is
    answered with the [-32600] error and nothing else: the body always has an
    [id], the envelope's when it has one and [null] otherwise, no chunk is
    written to any stream, and the state is unchanged. *)
Theorem malformed_envelope_rejected
    (st : server) (sid : string) (sd : session) (rpc : value) :
  reachable st -> sessions st !! sid = Some sd ->
  rpc = VUndef \/ JS.prop rpc "jsonrpc" <> VStr "2.0" \/ JS.prop rpc "method" = VUndef ->
  post_message st (VStr sid) rpc
  = {| final := st;
       trace := [ HttpJson 200
                    (VObj [ ("jsonrpc", VStr "2.0");
                            ("id", match JS.prop rpc "id" with VUndef => VNull | id => id end);
                            ("error", VObj [ ("code", VNum (-32600));
                                             ("message", VStr "Invalid JSON-RPC request") ]) ]) ];
       completed := true |}.
Proof.
  intros Hr Hl Hbad.
  rewrite (post_message_registered _ _ _ Hr Hl). unfold answer.
  assert (Hguard : negb (JS.truthy rpc)
                   || negb (JS.is_str (JS.prop rpc "jsonrpc") "2.0")
                   || negb (JS.truthy (JS.prop rpc "method")) = true).
  { destruct Hbad as [->|[Htag|Hmeth]]; [done| |].
    - rewrite (is_str_false _ _ Htag). simpl. by rewrite orb_true_r.
    - rewrite Hmeth. simpl. by rewrite orb_true_r. }
  rewrite Hguard. f_equal. f_equal. f_equal. unfold invalid_request_body.
  do 3 f_equal. unfold JS.coalesce, JS.opt_prop.
  destruct rpc; try done; by destruct (JS.prop _ "id").
Qed.

Lemma malformed_envelope_rejected_witness :
  let rpc := VObj [ ("jsonrpc", VStr "2.0"); ("id", VStr "req-1") ] in
  JS.prop rpc "method" = VUndef
  /\ post_message example_server (VStr example_uuid) rpc
     = {| final := example_server;
          trace := [ HttpJson 200
                       (VObj [ ("jsonrpc", VStr "2.0");
                               ("id", VStr "req-1");
                               ("error", VObj [ ("code", VNum (-32600));
                                                ("message", VStr "Invalid JSON-RPC request") ]) ]) ];
          completed := true |}.
Proof.
  split; [reflexivity|].
  apply (malformed_envelope_rejected example_server example_uuid _
           (VObj [ ("jsonrpc", VStr "2.0"); ("id", VStr "req-1") ])
           example_server_reachable example_session).
  right; right; reflexivity.
Defined.

(** ** The [tools/call] case *)

(** C4 fails on a name that cannot be put into the message.  With
    [params: { name: { toString: 1 } }] the handler acks, then throws a
    TypeError while building [`No such tool '${toolName}'`], and writes
    nothing: there is no [-32601] event. *)
Lemma unprintable_tool_name_is_not_reported :
  let rpc := envelope (VStr "tools/call")
               (VObj [ ("name", VObj [ ("toString", VNum 1) ]) ]) in
  JS.opt_prop (JS.prop rpc "params") "name" <> VStr "addNumbersTool"
  /\ post_message example_server (VStr example_uuid) rpc
     = {| final := example_server;
          trace := [ HttpJson 200
                       (VObj [ ("jsonrpc", VStr "2.0"); ("id", VNum 7);
                               ("result", VObj [ ("ack", VStr "Received tools/call") ]) ]) ];
          completed := false |}
  /\ ~ every_unknown_name_is_reported.
Proof.
  simpl. split; [discriminate|].
  assert (Hpost : post_message example_server (VStr example_uuid)
                    (envelope (VStr "tools/call")
                       (VObj [ ("name", VObj [ ("toString", VNum 1) ]) ]))
                  = {| final := example_server;
                       trace := [ HttpJson 200
                                    (ack_body (envelope (VStr "tools/call")
                                                 (VObj [ ("name", VObj [ ("toString", VNum 1) ]) ]))
                                       "tools/call") ];
                       completed := false |}).
  { rewrite (post_message_registered _ _ _ example_server_reachable example_session).
    reflexivity. }
  split; [exact Hpost|].
  intros Hclaim.
  destruct (Hclaim example_server example_uuid _
              (envelope (VStr "tools/call")
                 (VObj [ ("name", VObj [ ("toString", VNum 1) ]) ]))
              example_server_reachable example_session)
    as (h & message & Hin); [reflexivity | reflexivity | discriminate |].
  rewrite Hpost in Hin. destruct Hin as [Hin|[]]. discriminate Hin.
Qed.

(** C4, amended.  A [tools/call] envelope, on a registered session, naming
    anything but ["addNumbersTool"] that converts to text (every string,
    number, boolean, [null] and a missing name do; an object with its own
    [toString] property does not): the handler replies with the ordinary ack,
    status 200, and then writes one [message] event to the session's stream,
    the error [-32601] under the envelope's id, with the message
    [No such tool '<name>'], where [<name>] is the text of the requested
    name.  Nothing else happens and the state is unchanged. *)
Theorem unknown_tool_reported_on_stream
    (st : server) (sid : string) (sd : session) (rpc : value) (name : string) :
  reachable st -> sessions st !! sid = Some sd ->
  JS.prop rpc "jsonrpc" = VStr "2.0" ->
  JS.prop rpc "method" = VStr "tools/call" ->
  JS.opt_prop (JS.prop rpc "params") "name" <> VStr "addNumbersTool" ->
  JS.to_string (JS.opt_prop (JS.prop rpc "params") "name") = Some name ->
  exists h, sseRes sd = Some h
    /\ post_message st (VStr sid) rpc
       = {| final := st;
            trace :=
              [ HttpJson 200
                  (VObj [ ("jsonrpc", VStr "2.0"); ("id", JS.prop rpc "id");
                          ("result", VObj [ ("ack", VStr "Received tools/call") ]) ]);
                SseWrite h ("event: message" ++ JS.nl);
                SseWrite h
                  ("data: "
                   ++ JSON.in_template
                        (VObj [ ("jsonrpc", VStr "2.0"); ("id", JS.prop rpc "id");
                                ("error",
                                 VObj [ ("code", VNum (-32601));
                                        ("message", VStr ("No such tool '" ++ name ++ "'")) ]) ])
                   ++ JS.nl ++ JS.nl) ];
            completed := true |}.
Proof.
  intros Hr Hl Htag Hmeth Hother Hname.
  destruct (post_message_tools_call st sid sd Hr Hl rpc Htag Hmeth) as (h & Hs & ->).
  exists h. split; [done|].
  unfold tools_call. by rewrite (is_str_false _ _ Hother), Hname.
Qed.

Lemma unknown_tool_reported_on_stream_witness :
  exists h, sseRes {| sseRes := Some O; initialized := false |} = Some h
    /\ post_message example_server (VStr example_uuid)
         (envelope (VStr "tools/call") (VObj [ ("name", VStr "doesNotExist") ]))
       = {| final := example_server;
            trace :=
              [ HttpJson 200
                  (VObj [ ("jsonrpc", VStr "2.0"); ("id", VNum 7);
                          ("result", VObj [ ("ack", VStr "Received tools/call") ]) ]);
                SseWrite h ("event: message" ++ JS.nl);
                SseWrite h
                  ("data: "
                   ++ JSON.in_template
                        (VObj [ ("jsonrpc", VStr "2.0"); ("id", VNum 7);
                                ("error",
                                 VObj [ ("code", VNum (-32601));
                                        ("message", VStr "No such tool 'doesNotExist'") ]) ])
                   ++ JS.nl ++ JS.nl) ];
            completed := true |}.
Proof.
  apply (unknown_tool_reported_on_stream example_server example_uuid _
           (envelope (VStr "tools/call") (VObj [ ("name", VStr "doesNotExist") ]))
           "doesNotExist" example_server_reachable example_session);
    [reflexivity | reflexivity | discriminate | reflexivity].
Defined.

Lemma argument_or_zero (v : value) (x : Z) (shown : string) :
  argument v x shown -> JS.or v (VNum 0) = VNum x.
Proof.
  intros [|z _]; [done|]. unfold JS.or. simpl.
  destruct (Z.eqb_spec z 0) as [->|]; done.
Qed.

Lemma argument_to_string (v : value) (x : Z) (shown : string) :
  argument v x shown -> JS.to_string v = Some shown.
Proof. by intros [|z _]. Qed.

(** C5 fails on arguments that are not numbers.  With
    [{ a: "2", b: "3" }] the operands are text and [+] joins them: the event
    reports [23].  With [{ a: { toString: 1 } }] the handler acks, then
    throws a TypeError in [(args.a || 0) + (args.b || 0)], and no result is
    written at all. *)
Lemma operands_that_are_not_numbers :
  trace (post_message example_server (VStr example_uuid)
           (add_call (VObj [ ("a", VStr "2"); ("b", VStr "3") ])))
  = sum_event "Sum of 2 + 3 = 23"
  /\ post_message example_server (VStr example_uuid)
       (add_call (VObj [ ("a", VObj [ ("toString", VNum 1) ]) ]))
     = {| final := example_server;
          trace := [ HttpJson 200
                       (VObj [ ("jsonrpc", VStr "2.0"); ("id", VNum 7);
                               ("result", VObj [ ("ack", VStr "Received tools/call") ]) ]) ];
          completed := false |}
  /\ ~ every_add_call_gets_a_text_result.
Proof.
  assert (Hpost : post_message example_server (VStr example_uuid)
                    (add_call (VObj [ ("a", VObj [ ("toString", VNum 1) ]) ]))
                  = {| final := example_server;
                       trace := [ HttpJson 200
                                    (ack_body (add_call
                                                 (VObj [ ("a", VObj [ ("toString", VNum 1) ]) ]))
                                       "tools/call") ];
                       completed := false |}).
  { rewrite (post_message_registered _ _ _ example_server_reachable example_session).
    reflexivity. }
  split; [|split; [exact Hpost|]].
  - rewrite (post_message_registered _ _ _ example_server_reachable example_session).
    reflexivity.
  - intros Hclaim.
    destruct (Hclaim example_server example_uuid _
                (add_call (VObj [ ("a", VObj [ ("toString", VNum 1) ]) ]))
                example_server_reachable example_session)
      as (h & text & Hin); [reflexivity..|].
    rewrite Hpost in Hin. destruct Hin as [Hin|[]]. discriminate Hin.
Qed.

(** C5, amended.  A [tools/call] envelope naming ["addNumbersTool"], on a
    registered session, with each of [a] and [b] a number or missing: after
    the ack the handler writes one [message] event whose result is a single
    text block [Sum of <a> + <b> = <sum>], where the sum counts a missing
    argument as 0 (the text prints it as [undefined]).  The numbers are safe
    integers with a safe sum, below 2^53 in magnitude, where the addition of
    doubles is the addition of integers. *)
Theorem add_numbers_tool_reports_sum
    (st : server) (sid : string) (sd : session) (rpc : value)
    (x y : Z) (shown_a shown_b : string) :
  reachable st -> sessions st !! sid = Some sd ->
  JS.prop rpc "jsonrpc" = VStr "2.0" ->
  JS.prop rpc "method" = VStr "tools/call" ->
  JS.opt_prop (JS.prop rpc "params") "name" = VStr "addNumbersTool" ->
  argument (JS.prop (JS.or (JS.opt_prop (JS.prop rpc "params") "arguments") (VObj [])) "a")
           x shown_a ->
  argument (JS.prop (JS.or (JS.opt_prop (JS.prop rpc "params") "arguments") (VObj [])) "b")
           y shown_b ->
  (Z.abs (x + y) < 2 ^ 53)%Z ->
  exists h, sseRes sd = Some h
    /\ post_message st (VStr sid) rpc
       = {| final := st;
            trace :=
              [ HttpJson 200
                  (VObj [ ("jsonrpc", VStr "2.0"); ("id", JS.prop rpc "id");
                          ("result", VObj [ ("ack", VStr "Received tools/call") ]) ]);
                SseWrite h ("event: message" ++ JS.nl);
                SseWrite h
                  ("data: "
                   ++ JSON.in_template
                        (VObj [ ("jsonrpc", VStr "2.0"); ("id", JS.prop rpc "id");
                                ("result",
                                 VObj [ ("content",
                                         VArr [ VObj [ ("type", VStr "text");
                                                       ("text",
                                                        VStr ("Sum of " ++ shown_a ++ " + "
                                                              ++ shown_b ++ " = "
                                                              ++ JS.number_to_string (x + y))) ] ]) ]) ])
                   ++ JS.nl ++ JS.nl) ];
            completed := true |}.
Proof.
  intros Hr Hl Htag Hmeth Hname Ha Hb Hsafe.
  destruct (post_message_tools_call st sid sd Hr Hl rpc Htag Hmeth) as (h & Hs & ->).
  exists h. split; [done|].
  unfold tools_call. rewrite Hname, is_str_refl.
  rewrite (argument_or_zero _ _ _ Ha), (argument_or_zero _ _ _ Hb).
  rewrite (argument_to_string _ _ _ Ha), (argument_to_string _ _ _ Hb).
  unfold JS.add. cbn [JS.to_primitive JS.is_string orb JS.to_number].
  rewrite (round53_small _ Hsafe). done.
Qed.

Lemma add_numbers_tool_reports_sum_witness :
  (exists h, Some O = Some h
     /\ post_message example_server (VStr example_uuid)
          (add_call (VObj [ ("a", VNum 2); ("b", VNum 3) ]))
        = {| final := example_server;
             trace := sum_event "Sum of 2 + 3 = 5";
             completed := true |})
  /\ (exists h, Some O = Some h
        /\ post_message example_server (VStr example_uuid)
             (add_call (VObj [ ("b", VNum 3) ]))
           = {| final := example_server;
                trace := sum_event "Sum of undefined + 3 = 3";
                completed := true |}).
Proof.
  split.
  - destruct (add_numbers_tool_reports_sum example_server example_uuid _
                (add_call (VObj [ ("a", VNum 2); ("b", VNum 3) ])) 2 3 "2" "3"
                example_server_reachable example_session
                eq_refl eq_refl eq_refl (argument_number 2 eq_refl) (argument_number 3 eq_refl) eq_refl)
      as (h & Hh & Hpost).
    exists h. split; [exact Hh|]. injection Hh as <-. exact Hpost.
  - destruct (add_numbers_tool_reports_sum example_server example_uuid _
                (add_call (VObj [ ("b", VNum 3) ])) 0 3 "undefined" "3"
                example_server_reachable example_session
                eq_refl eq_refl eq_refl argument_missing (argument_number 3 eq_refl) eq_refl)
      as (h & Hh & Hpost).
    exists h. split; [exact Hh|]. injection Hh as <-. exact Hpost.
Defined.

(** ** Sessions that are not there *)

(** A request leaves an unregistered id unregistered, unless it is the
    [GET /sse-cursor] whose [uuidv4()] returns that very id. *)
Lemma handle_request_absent (st : server) (r : request) (sid : string) :
  sessions st !! sid = None -> r <> GetSseCursor sid ->
  sessions (final (handle_request st r)) !! sid = None.
Proof.
  intros Hnone Hr. destruct r as [uuid|res now|res|sessionId rpc]; simpl.
  - rewrite lookup_insert_ne; [done | congruence].
  - unfold heartbeat. by destruct (listeners st !! res).
  - unfold on_close. destruct (listeners st !! res) as [captured|]; [|done].
    simpl. apply lookup_delete_None. by right.
  - destruct (post_message_final st sessionId rpc)
      as [->|(k & sd & h & _ & Hl & _ & _ & ->)]; [done|].
    simpl. rewrite lookup_insert_ne; [done | congruence].
Qed.

Lemma run_absent (rs : list request) (st : server) (sid : string) :
  sessions st !! sid = None -> Forall (fun r => r <> GetSseCursor sid) rs ->
  sessions (run st rs) !! sid = None.
Proof.
  revert st. induction rs as [|r rs IH]; intros st Hnone Hrs; [done|].
  apply Forall_cons in Hrs as [Hr Hrs]. simpl.
  apply IH; [|done]. by apply handle_request_absent.
Qed.

Lemma post_message_unregistered (st : server) (sessionId rpc : value) :
  JS.truthy sessionId = true -> sessions_get st sessionId = None ->
  post_message st sessionId rpc
  = {| final := st; trace := [ HttpJson 404 unknown_session_body ]; completed := true |}.
Proof. intros Ht Hget. unfold post_message. by rewrite Ht, Hget. Qed.

(** C6.  (1) Without a [sessionId] parameter the reply is status 400 and
    nothing else happens.  (2) With a [sessionId] that the registry does not
    hold, the reply is status 404, no chunk is written, nothing else happens.
    (3) When the stream of a reachable server closes, the session its
    listener captured is no longer registered, and it stays so through any
    later requests, short of a new stream being given the very same id: every
    call with that id is then answered with status 404 and writes nothing. *)
Theorem missing_and_unknown_sessions :
  (forall (st : server) (rpc : value),
     post_message st VUndef rpc
     = {| final := st; trace := [ HttpJson 400 missing_session_body ]; completed := true |})
  /\ (forall (st : server) (sessionId rpc : value),
        JS.truthy sessionId = true -> sessions_get st sessionId = None ->
        post_message st sessionId rpc
        = {| final := st; trace := [ HttpJson 404 unknown_session_body ];
             completed := true |})
  /\ (forall (st : server) (res : handle) (sid : string) (later : list request) (rpc : value),
        reachable st -> listeners st !! res = Some sid ->
        Forall (fun r => r <> GetSseCursor sid) later ->
        let st' := run (final (on_close st res)) later in
        sessions st' !! sid = None
        /\ post_message st' (VStr sid) rpc
           = {| final := st'; trace := [ HttpJson 404 unknown_session_body ];
                completed := true |}).
Proof.
  split; [done|]. split; [apply post_message_unregistered|].
  intros st res sid later rpc Hr Hcap Hlater st'.
  assert (Hnone : sessions st' !! sid = None).
  { apply run_absent; [|done]. unfold on_close. rewrite Hcap. simpl.
    apply lookup_delete_eq. }
  split; [done|].
  apply post_message_unregistered.
  - apply uuid_truthy. by apply (wf_captured st (reachable_wf st Hr) res).
  - simpl. by rewrite Hnone.
Qed.

Lemma missing_and_unknown_sessions_witness :
  post_message example_server VUndef (envelope (VStr "tools/list") VUndef)
  = {| final := example_server; trace := [ HttpJson 400 missing_session_body ];
       completed := true |}
  /\ post_message example_server (VStr "no-such-session") (envelope (VStr "tools/list") VUndef)
     = {| final := example_server; trace := [ HttpJson 404 unknown_session_body ];
          completed := true |}
  /\ (let st' := run (final (on_close example_server O))
                   [ PostMessage (VStr example_uuid) (envelope (VStr "initialize") VUndef);
                     Heartbeat O 1700000000000 ] in
      sessions st' !! example_uuid = None
      /\ post_message st' (VStr example_uuid) (envelope (VStr "tools/list") VUndef)
         = {| final := st'; trace := [ HttpJson 404 unknown_session_body ];
              completed := true |}).
Proof.
  destruct missing_and_unknown_sessions as (H400 & H404 & Hclosed).
  split; [apply H400|]. split.
  - apply H404; reflexivity.
  - apply (Hclosed example_server O example_uuid
             [ PostMessage (VStr example_uuid) (envelope (VStr "initialize") VUndef);
               Heartbeat O 1700000000000 ]
             (envelope (VStr "tools/list") VUndef)
             example_server_reachable example_listener).
    repeat constructor; discriminate.
Defined.

(** ** The [initialize] case and the [initialized] flag *)




(** C8.  A call on a registered session leaves one of two traces.  Either
    the trace is empty and the handler did not complete (it threw while
    putting [rpc.method] into the ack, before replying or writing), or the
    trace starts with the HTTP reply, status 200, which is the [-32600]
    error with nothing after it or the success ack, and every effect after
    the reply is a write to a stream.  So no chunk is written before the
    reply. *)
Theorem reply_precedes_stream_writes
    (st : server) (sid : string) (sd : session) (rpc : value) :
  reachable st -> sessions st !! sid = Some sd ->
  let o := post_message st (VStr sid) rpc in
  (trace o = [] /\ completed o = false)
  \/ exists body writes,
       trace o = HttpJson 200 body :: writes
       /\ sse_writes writes = writes
       /\ ((body = invalid_request_body rpc /\ writes = [])
           \/ exists method, body = ack_body rpc method).
Proof.
  intros Hr Hl o. unfold o. rewrite (post_message_registered _ _ _ Hr Hl).
  destruct (answer_trace st sid sd rpc)
    as [[Ht Hc]|[Ht|(method & _ & [Ht|(h & obj & _ & Ht & _)])]].
  - by left.
  - right. exists (invalid_request_body rpc), []. eauto.
  - right. exists (ack_body rpc method), []. eauto.
  - right. exists (ack_body rpc method), (sse_message h obj). eauto.
Qed.

Lemma reply_precedes_stream_writes_witness :
  let o := post_message example_server (VStr example_uuid)
             (envelope (VStr "no/such/method") VUndef) in
  (trace o = [] /\ completed o = false)
  \/ exists body writes,
       trace o = HttpJson 200 body :: writes
       /\ sse_writes writes = writes
       /\ ((body = invalid_request_body (envelope (VStr "no/such/method") VUndef)
            /\ writes = [])
           \/ exists method,
                body = ack_body (envelope (VStr "no/such/method") VUndef) method).
Proof.
  exact (reply_precedes_stream_writes example_server example_uuid _
           (envelope (VStr "no/such/method") VUndef)
           example_server_reachable example_session).
Defined.

(** What the handler replies and writes depends on the session only through
    its stream. *)
Lemma answer_reads_stream_only (st st' : server) (sid : string) (sd sd' : session) (rpc : value) :
  sseRes sd = sseRes sd' ->
  trace (answer st sid sd rpc) = trace (answer st' sid sd' rpc)
  /\ completed (answer st sid sd rpc) = completed (answer st' sid sd' rpc)
  /\ ((final (answer st sid sd rpc) = st /\ final (answer st' sid sd' rpc) = st')
      \/ (final (answer st sid sd rpc) = set_initialized st sid sd
          /\ final (answer st' sid sd' rpc) = set_initialized st' sid sd')).
Proof.
  intros Hs. unfold answer. rewrite Hs.
  destruct (_ || _); [by eauto|].
  destruct (JS.to_string _); [|by eauto].
  destruct (sseRes sd'); [|by eauto].
  repeat (destruct (JS.is_str _ _)); try by eauto 7.
  destruct (tools_call _ _); by eauto.
Qed.

Lemma sessions_get_with_flag (st : server) (sid : string) (stream : option handle)
    (flag : bool) (key : value) :
  sessions_get (with_flag st sid stream flag) key
  = match key with
    | VStr k =>
        if decide (sid = k) then Some (k, {| sseRes := stream; initialized := flag |})
        else sessions_get st key
    | _ => None
    end.
Proof.
  destruct key as [| | | | |k| |]; try done. simpl.
  destruct (decide (sid = k)) as [<-|Hne].
  - by rewrite lookup_insert_eq.
  - by rewrite lookup_insert_ne.
Qed.

Lemma with_flag_twice (st : server) (sid : string) (stream : option handle) (b b' : bool) :
  with_flag (with_flag st sid stream b) sid stream b' = with_flag st sid stream b'.
Proof. unfold with_flag. simpl. f_equal. apply insert_insert_eq. Qed.

Lemma with_flag_set_initialized (st : server) (sid k : string) (stream : option handle)
    (b : bool) (sd sd' : session) :
  (if decide (sid = k) then sseRes sd = stream /\ sseRes sd' = stream else sd = sd') ->
  with_flag (set_initialized (with_flag st sid stream b) k sd) sid stream true
  = set_initialized (with_flag st sid stream true) k sd'.
Proof.
  intros Hsd. unfold with_flag, set_initialized. simpl. f_equal.
  destruct (decide (sid = k)) as [<-|Hne].
  - destruct Hsd as [-> ->]. by rewrite !insert_insert_eq.
  - subst sd'. rewrite (insert_insert_ne _ sid k) by done. by rewrite insert_insert_eq.
Qed.

(** C9.  Take any registry and any session in it, and set the session's
    flag to false or to true.  Any call, with whatever session id and
    whatever envelope, then has the same trace (the same HTTP reply and the
    same stream writes, in the same order) and the same completion in both
    registries, and the two final states differ in nothing but that flag: no
    branch of the handler reads [initialized]. *)
Theorem initialized_flag_gates_nothing
    (st : server) (sid : string) (stream : option handle) (sessionId rpc : value) :
  let unset := post_message (with_flag st sid stream false) sessionId rpc in
  let set := post_message (with_flag st sid stream true) sessionId rpc in
  trace unset = trace set
  /\ completed unset = completed set
  /\ with_flag (final unset) sid stream true = final set.
Proof.
  assert (Hsame : forall o o' : outcome,
            trace o = trace o' -> completed o = completed o' ->
            final o = with_flag st sid stream false ->
            final o' = with_flag st sid stream true ->
            trace o = trace o' /\ completed o = completed o'
            /\ with_flag (final o) sid stream true = final o').
  { intros o o' Ht Hc -> ->. by rewrite with_flag_twice. }
  simpl. unfold post_message.
  destruct (negb (JS.truthy sessionId)); [by apply Hsame|].
  rewrite !sessions_get_with_flag.
  destruct sessionId as [| | | | |k| |]; try by apply Hsame.
  destruct (decide (sid = k)) as [<-|Hne].
  - destruct (answer_reads_stream_only
                (with_flag st sid stream false) (with_flag st sid stream true) sid
                {| sseRes := stream; initialized := false |}
                {| sseRes := stream; initialized := true |} rpc eq_refl)
      as (Ht & Hc & [[Hf Hf']|[Hf Hf']]); [by apply Hsame|].
    repeat split; try done. rewrite Hf, Hf'.
    apply with_flag_set_initialized. by rewrite decide_True.
  - destruct (sessions_get st (VStr k)) as [[k' sd]|] eqn:Hget; [|by apply Hsame].
    apply sessions_get_Some in Hget as [[= <-] _].
    destruct (answer_reads_stream_only
                (with_flag st sid stream false) (with_flag st sid stream true) k
                sd sd rpc eq_refl)
      as (Ht & Hc & [[Hf Hf']|[Hf Hf']]); [by apply Hsame|].
    repeat split; try done. rewrite Hf, Hf'.
    apply with_flag_set_initialized. by rewrite decide_False.
Qed.

(** C10.  A call changes nothing but, at most, one flag.  After any
    [POST /message], whatever the session id and the envelope: the same ids
    are registered, the live connections and the next response object are the
    same, every session holds the same stream, and every session has the same
    flag, except that the addressed session's flag is true after a call
    whose method is ["initialize"].  If the method is not ["initialize"] the
    state is the same state. *)
Theorem post_message_frame (st : server) (sessionId rpc : value) :
  let st' := final (post_message st sessionId rpc) in
  dom (sessions st') = dom (sessions st)
  /\ listeners st' = listeners st
  /\ next_handle st' = next_handle st
  /\ (forall (k : string) (sd' : session),
        sessions st' !! k = Some sd' ->
        exists sd, sessions st !! k = Some sd
          /\ sseRes sd' = sseRes sd
          /\ (initialized sd' = initialized sd
              \/ (sessionId = VStr k /\ JS.prop rpc "method" = VStr "initialize"
                  /\ initialized sd' = true)))
  /\ (JS.prop rpc "method" <> VStr "initialize" -> st' = st).
Proof.
  simpl.
  destruct (post_message_final st sessionId rpc)
    as [->|(sid & sd & h & -> & Hl & Hs & Hmeth & ->)].
  - repeat split; try done. intros k sd' Hk. exists sd'. eauto.
  - simpl. repeat split; try done.
    + apply dom_insert_lookup_L. by exists sd.
    + intros k sd' Hk. destruct (decide (sid = k)) as [<-|Hne].
      * rewrite lookup_insert_eq in Hk. simplify_eq.
        exists sd. simpl. eauto 6.
      * rewrite lookup_insert_ne in Hk by done. exists sd'. eauto.
Qed.

Lemma post_message_frame_witness :
  let rpc := envelope (VStr "tools/call") (VObj [ ("name", VStr "doesNotExist") ]) in
  JS.prop rpc "method" <> VStr "initialize"
  /\ final (post_message example_server (VStr example_uuid) rpc) = example_server.
Proof.
  split; [discriminate|].
  apply (post_message_frame example_server (VStr example_uuid)
           (envelope (VStr "tools/call") (VObj [ ("name", VStr "doesNotExist") ]))).
  discriminate.
Defined.

(** ** Where JavaScript's conversions show *)

(** [+] concatenates as soon as one operand is text: with [{ a: "2", b: "3" }]
    the tool reports [23]. *)
Example add_numbers_concatenates_text :
  trace (post_message example_server (VStr example_uuid)
           (add_call (VObj [ ("a", VStr "2"); ("b", VStr "3") ])))
  = sum_event "Sum of 2 + 3 = 23".
Proof. reflexivity. Qed.

(** A [method] that is an object with an own [toString] property passes
    [!rpc.method] and cannot be put into the ack: the handler throws before
    it has replied or written anything. *)
Example method_without_text_throws :
  post_message example_server (VStr example_uuid)
    (envelope (VObj [ ("toString", VNum 1) ]) VUndef)
  = {| final := example_server; trace := []; completed := false |}.
Proof.
  rewrite (post_message_registered _ _ _ example_server_reachable example_session).
  reflexivity.
Qed.

(** An envelope without [id] is answered without one: [id: rpc.id] is
    [undefined], which [JSON.stringify] leaves out of the event. *)
Example missing_id_stays_missing :
  trace (post_message example_server (VStr example_uuid)
           (VObj [ ("jsonrpc", VStr "2.0"); ("method", VStr "ping") ]))
  = [ HttpJson 200 (VObj [ ("jsonrpc", VStr "2.0"); ("id", VUndef);
                           ("result", VObj [ ("ack", VStr "Received ping") ]) ]);
      SseWrite O ("event: message" ++ JS.nl);
      SseWrite O ("data: {" ++ JSON.quote "jsonrpc" ++ ":" ++ JSON.quote "2.0" ++ ","
                  ++ JSON.quote "error" ++ ":{" ++ JSON.quote "code" ++ ":-32601,"
                  ++ JSON.quote "message" ++ ":"
                  ++ JSON.quote "Method 'ping' not recognized" ++ "}}"
                  ++ JS.nl ++ JS.nl) ].
Proof.
  rewrite (post_message_registered _ _ _ example_server_reachable example_session).
  reflexivity.
Qed.

(** ** Streams and connections *)

Lemma initial_streams_wf : streams_wf initial.
Proof. split; intros *; simpl; by rewrite lookup_empty. Qed.

Lemma handle_request_streams_wf (st : server) (r : request) :
  streams_wf st -> streams_wf (final (handle_request st r)).
Proof.
  intros [Hlive Hfresh]. destruct r as [uuid|res now|res|sessionId rpc]; simpl.
  - split; simpl.
    + intros k sd h. destruct (decide (uuid = k)) as [<-|Hne].
      * rewrite lookup_insert_eq. intros [= <-] [= <-]. apply lookup_insert_eq.
      * rewrite lookup_insert_ne by done. intros Hk Hs.
        pose proof (Hlive k sd h Hk Hs) as Hh. pose proof (Hfresh h k Hh) as Hlt.
        rewrite lookup_insert_ne; [done | lia].
    + intros h k. destruct (decide (next_handle st = h)) as [<-|Hne].
      * intros _. lia.
      * rewrite lookup_insert_ne by done. intros Hh. pose proof (Hfresh h k Hh). lia.
  - unfold heartbeat. by destruct (listeners st !! res).
  - unfold on_close. destruct (listeners st !! res) as [captured|] eqn:Hcap; [|done].
    split; simpl.
    + intros k sd h Hk Hs. apply lookup_delete_Some in Hk as [Hne Hk].
      pose proof (Hlive k sd h Hk Hs) as Hh.
      apply lookup_delete_Some. split; [|done].
      intros <-. rewrite Hcap in Hh. congruence.
    + intros h k Hh. apply lookup_delete_Some in Hh as [_ Hh]. eauto.
  - destruct (post_message_final st sessionId rpc)
      as [->|(sid & sd & h & _ & Hl & _ & _ & ->)]; [done|].
    split; simpl; [|done].
    intros k sd' h'. destruct (decide (sid = k)) as [<-|Hne].
    + rewrite lookup_insert_eq. intros [= <-]. simpl. eauto.
    + rewrite lookup_insert_ne by done. eauto.
Qed.

Lemma reachable_streams_wf (st : server) : reachable st -> streams_wf st.
Proof.
  induction 1 as [|st r _ IH _]; [apply initial_streams_wf | by apply handle_request_streams_wf].
Qed.

(** X1.  Two sessions registered in a reachable state never hold the same
    push stream. *)
Theorem sessions_do_not_share_a_stream
    (st : server) (k1 k2 : string) (sd1 sd2 : session) :
  reachable st -> k1 <> k2 ->
  sessions st !! k1 = Some sd1 -> sessions st !! k2 = Some sd2 ->
  sseRes sd1 <> sseRes sd2.
Proof.
  intros Hr Hne H1 H2 Heq.
  destruct (wf_stream st (reachable_wf st Hr) k1 sd1 H1) as [h Hh].
  pose proof (wf_live st (reachable_streams_wf st Hr) k1 sd1 h H1 Hh) as Hl1.
  rewrite Heq in Hh.
  pose proof (wf_live st (reachable_streams_wf st Hr) k2 sd2 h H2 Hh) as Hl2.
  congruence.
Qed.

Lemma two_stream_server_reachable : reachable two_stream_server.
Proof.
  apply (reachable_step example_server (GetSseCursor other_uuid));
    [apply example_server_reachable | reflexivity].
Qed.

Lemma sessions_do_not_share_a_stream_witness :
  Some O <> Some 1%nat.
Proof.
  apply (sessions_do_not_share_a_stream two_stream_server example_uuid other_uuid
           {| sseRes := Some O; initialized := false |}
           {| sseRes := Some 1%nat; initialized := false |}
           two_stream_server_reachable);
    [discriminate | reflexivity | reflexivity].
Defined.

(** The chunks of a call go to the stream of the session it found. *)
Lemma answer_writes (st : server) (sid : string) (sd : session) (rpc : value)
    (h : handle) (chunk : string) :
  In (SseWrite h chunk) (trace (answer st sid sd rpc)) -> sseRes sd = Some h.
Proof.
  destruct (answer_trace st sid sd rpc)
    as [[-> _]|[->|(method & _ & [->|(h' & obj & Hs & -> & _)])]]; simpl.
  - done.
  - intros [|[]]; discriminate.
  - intros [|[]]; discriminate.
  - intros [|[|[|[]]]]; simplify_eq; done.
Qed.

(** X2.  In a reachable state, every chunk that [POST /message] writes goes
    to a connection that is still open (its [close] event has not fired),
    and that connection is the one opened for the session id of the call. *)
Theorem writes_go_to_the_open_stream_of_the_call
    (st : server) (sessionId rpc : value) (h : handle) (chunk : string) :
  reachable st ->
  In (SseWrite h chunk) (trace (post_message st sessionId rpc)) ->
  exists sid, sessionId = VStr sid /\ listeners st !! h = Some sid.
Proof.
  intros Hr. unfold post_message.
  destruct (negb (JS.truthy sessionId)); [intros [|[]]; discriminate|].
  destruct (sessions_get st sessionId) as [[sid sd]|] eqn:Hget;
    [|intros [|[]]; discriminate].
  apply sessions_get_Some in Hget as [-> Hl].
  intros Hin. apply answer_writes in Hin.
  exists sid. split; [done|].
  by apply (wf_live st (reachable_streams_wf st Hr) sid sd h).
Qed.

Lemma writes_go_to_the_open_stream_of_the_call_witness :
  exists sid, VStr other_uuid = VStr sid /\ listeners two_stream_server !! 1%nat = Some sid.
Proof.
  apply (writes_go_to_the_open_stream_of_the_call two_stream_server (VStr other_uuid)
           (envelope (VStr "tools/list") VUndef) 1%nat ("event: message" ++ JS.nl)
           two_stream_server_reachable).
  rewrite (post_message_registered two_stream_server other_uuid
             {| sseRes := Some 1%nat; initialized := false |}
             two_stream_server_reachable eq_refl).
  right. left. reflexivity.
Defined.

(** X3.  Sessions do not outlive their connections: in a reachable state
    with no open connection the registry is empty. *)
Theorem no_connection_no_session (st : server) :
  reachable st -> listeners st = ∅ -> sessions st = ∅.
Proof.
  intros Hr Hnone. apply map_empty. intros k.
  destruct (sessions st !! k) as [sd|] eqn:Hk; [|done].
  destruct (wf_stream st (reachable_wf st Hr) k sd Hk) as [h Hh].
  pose proof (wf_live st (reachable_streams_wf st Hr) k sd h Hk Hh) as Hl.
  rewrite Hnone, lookup_empty in Hl. discriminate.
Qed.

Lemma closed_server_reachable : reachable closed_server.
Proof.
  apply (reachable_step example_server (Close O)); [apply example_server_reachable | done].
Qed.

Lemma no_connection_no_session_witness : sessions closed_server = ∅.
Proof.
  apply (no_connection_no_session closed_server closed_server_reachable).
  reflexivity.
Defined.

(** A response object that has been handed out and is not (or no longer)
    a live connection never becomes one: [GET /sse-cursor] always takes a new
    object. *)
Lemma handle_request_dead (st : server) (r : request) (res : handle) :
  listeners st !! res = None -> (res < next_handle st)%nat ->
  listeners (final (handle_request st r)) !! res = None
  /\ (res < next_handle (final (handle_request st r)))%nat.
Proof.
  intros Hnone Hlt. destruct r as [uuid|res' now|res'|sessionId rpc]; simpl.
  - split; [|lia]. rewrite lookup_insert_ne; [done | lia].
  - unfold heartbeat. by destruct (listeners st !! res').
  - unfold on_close. destruct (listeners st !! res') as [captured|]; [|done].
    simpl. split; [|done]. apply lookup_delete_None. by right.
  - destruct (post_message_final st sessionId rpc)
      as [->|(sid & sd & h & _ & _ & _ & _ & ->)]; done.
Qed.

Lemma run_dead (rs : list request) (st : server) (res : handle) :
  listeners st !! res = None -> (res < next_handle st)%nat ->
  listeners (run st rs) !! res = None.
Proof.
  revert st. induction rs as [|r rs IH]; intros st Hnone Hlt; [done|].
  simpl. destruct (handle_request_dead st r res Hnone Hlt) as [Hnone' Hlt']. by apply IH.
Qed.

(** X4.  Once the [close] listener of a connection has run, its heartbeat
    timer never writes again, whatever requests follow: the timer is cleared
    and no later stream is given the same response object. *)
Theorem no_heartbeat_after_close
    (st : server) (res : handle) (sid : string) (later : list request) (now : Z) :
  reachable st -> listeners st !! res = Some sid ->
  heartbeat (run (final (on_close st res)) later) res now
  = {| final := run (final (on_close st res)) later; trace := []; completed := true |}.
Proof.
  intros Hr Hcap.
  assert (Hdead : listeners (run (final (on_close st res)) later) !! res = None).
  { apply run_dead; unfold on_close; rewrite Hcap; simpl.
    - apply lookup_delete_eq.
    - by apply (wf_fresh st (reachable_streams_wf st Hr) res sid). }
  unfold heartbeat. by rewrite Hdead.
Qed.

Lemma no_heartbeat_after_close_witness :
  let st := run closed_server [ GetSseCursor other_uuid; Heartbeat 1%nat 1700000000000 ] in
  heartbeat st O 1700000010000 = {| final := st; trace := []; completed := true |}.
Proof.
  exact (no_heartbeat_after_close example_server O example_uuid
           [ GetSseCursor other_uuid; Heartbeat 1%nat 1700000000000 ] 1700000010000
           example_server_reachable example_listener).
Defined.

(** ** The other cases of the [switch] *)

(** X5.  The [default] case.  On a registered session, an envelope with
    the tag ["2.0"] whose method is a non-empty string other than the four
    the [switch] knows is acked and then answered on the session's stream
    with the error [-32601] under the envelope's id and the message
    [Method '<method>' not recognized]; the state is unchanged. *)
Theorem unknown_method_reported_on_stream
    (st : server) (sid : string) (sd : session) (rpc : value) (method : string) :
  reachable st -> sessions st !! sid = Some sd ->
  JS.prop rpc "jsonrpc" = VStr "2.0" ->
  JS.prop rpc "method" = VStr method ->
  method <> "" -> method <> "initialize" -> method <> "tools/list" ->
  method <> "tools/call" -> method <> "notifications/initialized" ->
  exists h, sseRes sd = Some h
    /\ post_message st (VStr sid) rpc
       = {| final := st;
            trace :=
              [ HttpJson 200
                  (VObj [ ("jsonrpc", VStr "2.0"); ("id", JS.prop rpc "id");
                          ("result", VObj [ ("ack", VStr ("Received " ++ method)) ]) ]);
                SseWrite h ("event: message" ++ JS.nl);
                SseWrite h
                  ("data: "
                   ++ JSON.in_template
                        (VObj [ ("jsonrpc", VStr "2.0"); ("id", JS.prop rpc "id");
                                ("error",
                                 VObj [ ("code", VNum (-32601));
                                        ("message",
                                         VStr ("Method '" ++ method ++ "' not recognized")) ]) ])
                   ++ JS.nl ++ JS.nl) ];
            completed := true |}.
Proof.
  intros Hr Hl Htag Hmeth Hne H1 H2 H3 H4.
  destruct (registered_session st sid sd Hr Hl) as (_ & _ & h & Hs).
  exists h. split; [done|].
  rewrite (answer_string_method st sid sd Hr Hl rpc method h Htag Hmeth Hne Hs).
  apply String.eqb_neq in H1, H2, H3, H4. by rewrite H1, H2, H3, H4.
Qed.

Lemma unknown_method_reported_on_stream_witness :
  exists h, Some O = Some h
    /\ post_message example_server (VStr example_uuid) (envelope (VStr "ping") VUndef)
       = {| final := example_server;
            trace :=
              [ HttpJson 200
                  (VObj [ ("jsonrpc", VStr "2.0"); ("id", VNum 7);
                          ("result", VObj [ ("ack", VStr "Received ping") ]) ]);
                SseWrite h ("event: message" ++ JS.nl);
                SseWrite h
                  ("data: "
                   ++ JSON.in_template
                        (VObj [ ("jsonrpc", VStr "2.0"); ("id", VNum 7);
                                ("error",
                                 VObj [ ("code", VNum (-32601));
                                        ("message", VStr "Method 'ping' not recognized") ]) ])
                   ++ JS.nl ++ JS.nl) ];
            completed := true |}.
Proof.
  apply (unknown_method_reported_on_stream example_server example_uuid _
           (envelope (VStr "ping") VUndef) "ping"
           example_server_reachable example_session);
    [reflexivity | reflexivity | discriminate..].
Defined.

(** X6.  The [tools/list] case.  On a registered session, a [tools/list]
    envelope with the tag ["2.0"] is acked and then answered on the session's
    stream with [toolsMsg]: the one descriptor of [addNumbersTool] and the
    count, under the envelope's id.  Neither [params] nor the session's flag
    matters, and the state is unchanged. *)
Theorem tools_list_reported_on_stream
    (st : server) (sid : string) (sd : session) (rpc : value) :
  reachable st -> sessions st !! sid = Some sd ->
  JS.prop rpc "jsonrpc" = VStr "2.0" ->
  JS.prop rpc "method" = VStr "tools/list" ->
  exists h, sseRes sd = Some h
    /\ post_message st (VStr sid) rpc
       = {| final := st;
            trace :=
              [ HttpJson 200
                  (VObj [ ("jsonrpc", VStr "2.0"); ("id", JS.prop rpc "id");
                          ("result", VObj [ ("ack", VStr "Received tools/list") ]) ]);
                SseWrite h ("event: message" ++ JS.nl);
                SseWrite h ("data: " ++ JSON.in_template (toolsMsg rpc) ++ JS.nl ++ JS.nl) ];
            completed := true |}
    /\ JS.prop (toolsMsg rpc) "id" = JS.prop rpc "id"
    /\ JS.prop (JS.prop (toolsMsg rpc) "result") "count" = VNum 1
    /\ exists tool, JS.prop (JS.prop (toolsMsg rpc) "result") "tools" = VArr [ tool ]
         /\ JS.prop tool "name" = VStr "addNumbersTool".
Proof.
  intros Hr Hl Htag Hmeth.
  destruct (registered_session st sid sd Hr Hl) as (_ & _ & h & Hs).
  exists h. split; [done|]. split.
  - by rewrite (answer_string_method st sid sd Hr Hl rpc "tools/list" h).
  - repeat split. eexists. split; reflexivity.
Qed.

Lemma tools_list_reported_on_stream_witness :
  exists h, Some O = Some h
    /\ post_message example_server (VStr example_uuid)
         (envelope (VStr "tools/list") (VObj [ ("cursor", VStr "ignored") ]))
       = {| final := example_server;
            trace :=
              [ HttpJson 200
                  (VObj [ ("jsonrpc", VStr "2.0"); ("id", VNum 7);
                          ("result", VObj [ ("ack", VStr "Received tools/list") ]) ]);
                SseWrite h ("event: message" ++ JS.nl);
                SseWrite h
                  ("data: "
                   ++ JSON.in_template
                        (toolsMsg (envelope (VStr "tools/list")
                                     (VObj [ ("cursor", VStr "ignored") ])))
                   ++ JS.nl ++ JS.nl) ];
            completed := true |}.
Proof.
  destruct (tools_list_reported_on_stream example_server example_uuid _
              (envelope (VStr "tools/list") (VObj [ ("cursor", VStr "ignored") ]))
              example_server_reachable example_session eq_refl eq_refl)
    as (h & Hh & Hpost & _).
  exists h. split; [exact Hh | exact Hpost].
Defined.

(** X7.  The [notifications/initialized] case.  On a registered session
    the notification is acked and that is all: nothing is written to any
    stream and the state, the session's [initialized] flag included, is what
    it was. *)
Theorem initialized_notification_is_only_acked
    (st : server) (sid : string) (sd : session) (rpc : value) :
  reachable st -> sessions st !! sid = Some sd ->
  JS.prop rpc "jsonrpc" = VStr "2.0" ->
  JS.prop rpc "method" = VStr "notifications/initialized" ->
  post_message st (VStr sid) rpc
  = {| final := st;
       trace :=
         [ HttpJson 200
             (VObj [ ("jsonrpc", VStr "2.0"); ("id", JS.prop rpc "id");
                     ("result",
                      VObj [ ("ack", VStr "Received notifications/initialized") ]) ]) ];
       completed := true |}.
Proof.
  intros Hr Hl Htag Hmeth.
  destruct (registered_session st sid sd Hr Hl) as (_ & _ & h & Hs).
  by rewrite (answer_string_method st sid sd Hr Hl rpc "notifications/initialized" h).
Qed.

Lemma initialized_notification_is_only_acked_witness :
  post_message example_server (VStr example_uuid)
    (VObj [ ("jsonrpc", VStr "2.0"); ("method", VStr "notifications/initialized") ])
  = {| final := example_server;
       trace :=
         [ HttpJson 200
             (VObj [ ("jsonrpc", VStr "2.0"); ("id", VUndef);
                     ("result",
                      VObj [ ("ack", VStr "Received notifications/initialized") ]) ]) ];
       completed := true |}
  /\ initialized <$> sessions example_server !! example_uuid = Some false.
Proof.
  split; [|reflexivity].
  exact (initialized_notification_is_only_acked example_server example_uuid _
           (VObj [ ("jsonrpc", VStr "2.0"); ("method", VStr "notifications/initialized") ])
           example_server_reachable example_session eq_refl eq_refl).
Defined.

(** ** More on [addNumbersTool] *)

Lemma operand_or_zero (v : value) (x : Z) : operand v x -> JS.or v (VNum 0) = VNum x.
Proof.
  intros [v' Hf|z _]; unfold JS.or.
  - by rewrite Hf.
  - simpl. destruct (Z.eqb_spec z 0) as [->|]; done.
Qed.

(** X8.  [v || 0] takes every falsy argument for 0, not only a missing
    one.  For a [tools/call] of [addNumbersTool] on a registered session where
    each of [a] and [b] is falsy ([undefined], [null], [false], [0], the
    empty string) or a safe integer, with a safe sum, the event's text is
    [Sum of <a> + <b> = <sum>] with the arguments printed as they came and
    the falsy ones counted as 0.  An [arguments] that is itself falsy is
    read as the empty object, so both operands are then 0. *)
Theorem falsy_arguments_count_as_zero
    (st : server) (sid : string) (sd : session) (rpc : value)
    (x y : Z) (shown_a shown_b : string) :
  reachable st -> sessions st !! sid = Some sd ->
  JS.prop rpc "jsonrpc" = VStr "2.0" ->
  JS.prop rpc "method" = VStr "tools/call" ->
  JS.opt_prop (JS.prop rpc "params") "name" = VStr "addNumbersTool" ->
  operand (JS.prop (JS.or (JS.opt_prop (JS.prop rpc "params") "arguments") (VObj [])) "a") x ->
  operand (JS.prop (JS.or (JS.opt_prop (JS.prop rpc "params") "arguments") (VObj [])) "b") y ->
  JS.to_string (JS.prop (JS.or (JS.opt_prop (JS.prop rpc "params") "arguments") (VObj [])) "a")
  = Some shown_a ->
  JS.to_string (JS.prop (JS.or (JS.opt_prop (JS.prop rpc "params") "arguments") (VObj [])) "b")
  = Some shown_b ->
  (Z.abs (x + y) < 2 ^ 53)%Z ->
  exists h, sseRes sd = Some h
    /\ post_message st (VStr sid) rpc
       = {| final := st;
            trace :=
              HttpJson 200 (ack_body rpc "tools/call")
              :: sse_message h
                   (callMsg rpc ("Sum of " ++ shown_a ++ " + " ++ shown_b ++ " = "
                                 ++ JS.number_to_string (x + y)));
            completed := true |}.
Proof.
  intros Hr Hl Htag Hmeth Hname Ha Hb Hsa Hsb Hsafe.
  destruct (post_message_tools_call st sid sd Hr Hl rpc Htag Hmeth) as (h & Hs & ->).
  exists h. split; [done|].
  unfold tools_call. rewrite Hname, is_str_refl.
  rewrite (operand_or_zero _ _ Ha), (operand_or_zero _ _ Hb), Hsa, Hsb.
  unfold JS.add. cbn [JS.to_primitive JS.is_string orb JS.to_number].
  rewrite (round53_small _ Hsafe). done.
Qed.

Lemma falsy_arguments_count_as_zero_witness :
  (exists h, Some O = Some h
     /\ post_message example_server (VStr example_uuid)
          (add_call (VObj [ ("a", VNull); ("b", VNum 3) ]))
        = {| final := example_server;
             trace := sum_event "Sum of null + 3 = 3";
             completed := true |})
  /\ (exists h, Some O = Some h
        /\ post_message example_server (VStr example_uuid) (add_call VNull)
           = {| final := example_server;
                trace := sum_event "Sum of undefined + undefined = 0";
                completed := true |}).
Proof.
  split.
  - destruct (falsy_arguments_count_as_zero example_server example_uuid _
                (add_call (VObj [ ("a", VNull); ("b", VNum 3) ])) 0 3 "null" "3"
                example_server_reachable example_session
                eq_refl eq_refl eq_refl (operand_falsy VNull eq_refl)
                (operand_number 3 eq_refl) eq_refl eq_refl eq_refl)
      as (h & Hh & Hpost).
    exists h. split; [exact Hh|]. injection Hh as <-. exact Hpost.
  - destruct (falsy_arguments_count_as_zero example_server example_uuid _
                (add_call VNull) 0 0 "undefined" "undefined"
                example_server_reachable example_session
                eq_refl eq_refl eq_refl (operand_falsy VUndef eq_refl)
                (operand_falsy VUndef eq_refl) eq_refl eq_refl eq_refl)
      as (h & Hh & Hpost).
    exists h. split; [exact Hh|]. injection Hh as <-. exact Hpost.
Defined.

(** ** One reply per call *)

(** X9.  Whatever the state, the session id and the body, a call that
    completes has replied over HTTP exactly once, before anything else, and
    everything after the reply is a stream write.  A call that throws has
    replied at most once and written nothing. *)
Theorem one_reply_per_call (st : server) (sessionId rpc : value) :
  let o := post_message st sessionId rpc in
  (completed o = true ->
   exists status body writes,
     trace o = HttpJson status body :: writes /\ sse_writes writes = writes)
  /\ (completed o = false ->
      trace o = [] \/ exists body, trace o = [ HttpJson 200 body ]).
Proof.
  simpl. unfold post_message.
  destruct (negb (JS.truthy sessionId)); [split; [eauto|done]|].
  destruct (sessions_get st sessionId) as [[sid sd]|]; [|split; [eauto|done]].
  unfold answer.
  destruct (_ || _); [split; [eauto|done]|].
  destruct (JS.to_string _) as [method|]; [|split; [done|eauto]].
  destruct (sseRes sd) as [h|]; [|split; [eauto|done]].
  repeat (destruct (JS.is_str _ _)); try (split; [eauto|done]).
  destruct (tools_call h rpc) as [writes|] eqn:Hcall; [|split; [done|eauto]].
  apply tools_call_writes in Hcall as (obj & -> & _). split; [eauto|done].
Qed.

Lemma one_reply_per_call_witness :
  (exists status body writes,
     trace (post_message example_server (VStr example_uuid)
              (envelope (VStr "tools/list") VUndef))
     = HttpJson status body :: writes /\ sse_writes writes = writes)
  /\ (trace (post_message example_server (VStr example_uuid)
               (add_call (VObj [ ("a", VObj [ ("toString", VNum 1) ]) ]))) = []
      \/ exists body,
           trace (post_message example_server (VStr example_uuid)
                    (add_call (VObj [ ("a", VObj [ ("toString", VNum 1) ]) ])))
           = [ HttpJson 200 body ]).
Proof.
  split.
  - apply (one_reply_per_call example_server (VStr example_uuid)
             (envelope (VStr "tools/list") VUndef)).
    rewrite (post_message_registered _ _ _ example_server_reachable example_session).
    reflexivity.
  - apply (one_reply_per_call example_server (VStr example_uuid)
             (add_call (VObj [ ("a", VObj [ ("toString", VNum 1) ]) ]))).
    rewrite (post_message_registered _ _ _ example_server_reachable example_session).
    reflexivity.
Defined.

(** ** The life of the [initialized] flag *)

Lemma handle_request_keeps_flag (st : server) (r : request) (k : string) :
  r <> GetSseCursor k ->
  (forall sd, sessions st !! k = Some sd -> initialized sd = true) ->
  forall sd', sessions (final (handle_request st r)) !! k = Some sd' -> initialized sd' = true.
Proof.
  intros Hr Hflag sd'. destruct r as [uuid|res now|res|sessionId rpc]; simpl.
  - rewrite lookup_insert_ne; [eauto | congruence].
  - unfold heartbeat. destruct (listeners st !! res); eauto.
  - unfold on_close. destruct (listeners st !! res) as [captured|]; [|eauto].
    simpl. intros Hk. apply lookup_delete_Some in Hk as [_ Hk]. eauto.
  - destruct (post_message_final st sessionId rpc)
      as [->|(sid & sd & h & _ & _ & _ & _ & ->)]; [eauto|].
    simpl. destruct (decide (sid = k)) as [<-|Hne].
    + rewrite lookup_insert_eq. by intros [= <-].
    + rewrite lookup_insert_ne by done. eauto.
Qed.

(** X10.  Nothing clears the flag.  Once a session is initialized, it is
    still initialized after any sequence of requests for as long as it is
    registered, unless a later [GET /sse-cursor] draws the same id again and
    files a new session under it. *)
Theorem initialized_is_kept
    (st : server) (k : string) (sd : session) (later : list request) (sd' : session) :
  sessions st !! k = Some sd -> initialized sd = true ->
  Forall (fun r => r <> GetSseCursor k) later ->
  sessions (run st later) !! k = Some sd' ->
  initialized sd' = true.
Proof.
  intros Hk Hflag Hlater. revert sd'.
  assert (Hst : forall sd0, sessions st !! k = Some sd0 -> initialized sd0 = true).
  { intros sd0 Hk0. rewrite Hk in Hk0. by injection Hk0 as <-. }
  clear Hk Hflag. revert st Hst.
  induction later as [|r later IH]; intros st Hst sd'; simpl; [by apply Hst|].
  apply Forall_cons in Hlater as [Hr Hlater].
  apply IH; [done|]. by apply handle_request_keeps_flag.
Qed.

Lemma initialized_is_kept_witness :
  let later := [ PostMessage (VStr example_uuid) (envelope (VStr "tools/list") VUndef);
                 PostMessage (VStr example_uuid)
                   (envelope (VStr "notifications/initialized") VUndef);
                 GetSseCursor other_uuid ] in
  sessions (run initialized_server later) !! example_uuid
  = Some {| sseRes := Some O; initialized := true |}
  /\ initialized {| sseRes := Some O; initialized := true |} = true.
Proof.
  split; [reflexivity|].
  apply (initialized_is_kept initialized_server example_uuid
           {| sseRes := Some O; initialized := true |}
           [ PostMessage (VStr example_uuid) (envelope (VStr "tools/list") VUndef);
             PostMessage (VStr example_uuid)
               (envelope (VStr "notifications/initialized") VUndef);
             GetSseCursor other_uuid ]
           {| sseRes := Some O; initialized := true |}).
  - reflexivity.
  - reflexivity.
  - repeat constructor; discriminate.
  - reflexivity.
Defined.

(** ** From the endpoint event to the first call *)

Lemma post_message_found (st : server) (sid : string) (sd : session) (rpc : value) :
  sid <> "" -> sessions st !! sid = Some sd ->
  post_message st (VStr sid) rpc = answer st sid sd rpc.
Proof.
  intros Hne Hl. unfold post_message. rewrite (sessions_get_str _ _ _ Hl).
  simpl. by destruct (String.eqb_spec sid "").
Qed.

Lemma answer_effects (st : server) (sid : string) (sd : session) (rpc : value) (h : handle) :
  sseRes sd = Some h -> Forall (reply_or_write_to h) (trace (answer st sid sd rpc)).
Proof.
  intros Hs.
  destruct (answer_trace st sid sd rpc)
    as [[-> _]|[->|(method & _ & [->|(h' & obj & Hs' & -> & _)])]].
  - constructor.
  - apply Forall_cons; split; [left; eauto | constructor].
  - apply Forall_cons; split; [left; eauto | constructor].
  - rewrite Hs in Hs'. injection Hs' as <-. unfold sse_message.
    apply Forall_cons; split; [left; eauto|].
    apply Forall_cons; split; [right; eauto|].
    apply Forall_cons; split; [right; eauto | constructor].
Qed.

(** X11.  What [GET /sse-cursor] announces is what works.  From any state,
    with [uuid] the non-empty id drawn, the handler registers a session that
    is not initialized, on a response object not used before, and tells that
    stream [data: /message?sessionId=<uuid>].  A call with that session id is
    then never turned away with 400 or 404: each of its effects is a reply
    with status 200 or a chunk on that same stream. *)
Theorem announced_endpoint_reaches_the_stream (st : server) (uuid : string) (rpc : value) :
  uuid <> "" ->
  let opened := get_sse_cursor st uuid in
  let h := next_handle st in
  In (SseWrite h ("data: /message?sessionId=" ++ uuid ++ JS.nl ++ JS.nl)) (trace opened)
  /\ sessions (final opened) !! uuid = Some {| sseRes := Some h; initialized := false |}
  /\ Forall (reply_or_write_to h) (trace (post_message (final opened) (VStr uuid) rpc)).
Proof.
  intros Hne opened h.
  assert (Hl : sessions (final opened) !! uuid
               = Some {| sseRes := Some h; initialized := false |})
    by apply lookup_insert_eq.
  split; [|split; [done|]].
  - simpl. tauto.
  - rewrite (post_message_found _ _ _ _ Hne Hl). by apply answer_effects.
Qed.

Lemma announced_endpoint_reaches_the_stream_witness :
  In (SseWrite O ("data: /message?sessionId=" ++ example_uuid ++ JS.nl ++ JS.nl))
     (trace (get_sse_cursor initial example_uuid))
  /\ sessions example_server !! example_uuid = Some {| sseRes := Some O; initialized := false |}
  /\ Forall (reply_or_write_to O)
       (trace (post_message example_server (VStr example_uuid)
                 (envelope (VStr "initialize") VUndef))).
Proof.
  apply (announced_endpoint_reaches_the_stream initial example_uuid
           (envelope (VStr "initialize") VUndef)).
  discriminate.
Defined.

(** X12.  Two streams opened one after the other under different ids are
    served apart.  Each id is registered with its own response object, and
    the two objects differ.  A call with either id whose envelope has the tag
    ["2.0"] and a non-empty string for method is acked with status 200 under
    the envelope's id, and everything after the ack is a chunk on that id's
    own stream.  Whatever the envelope, no effect of a call with one id
    touches the other stream. *)
Theorem two_streams_are_served_apart
    (st : server) (uuid1 uuid2 : string) (rpc : value) (method : string) :
  uuid1 <> "" -> uuid2 <> "" -> uuid1 <> uuid2 ->
  JS.prop rpc "jsonrpc" = VStr "2.0" -> JS.prop rpc "method" = VStr method -> method <> "" ->
  let st2 := final (get_sse_cursor (final (get_sse_cursor st uuid1)) uuid2) in
  let h1 := next_handle st in
  let h2 := S (next_handle st) in
  let ack := HttpJson 200 (VObj [ ("jsonrpc", VStr "2.0"); ("id", JS.prop rpc "id");
                                  ("result", VObj [ ("ack", VStr ("Received " ++ method)) ]) ]) in
  sessions st2 !! uuid1 = Some {| sseRes := Some h1; initialized := false |}
  /\ sessions st2 !! uuid2 = Some {| sseRes := Some h2; initialized := false |}
  /\ h1 <> h2
  /\ (exists writes1,
        trace (post_message st2 (VStr uuid1) rpc) = ack :: writes1
        /\ Forall (fun e => exists chunk, e = SseWrite h1 chunk) writes1)
  /\ (exists writes2,
        trace (post_message st2 (VStr uuid2) rpc) = ack :: writes2
        /\ Forall (fun e => exists chunk, e = SseWrite h2 chunk) writes2)
  /\ (forall rpc', Forall (reply_or_write_to h1) (trace (post_message st2 (VStr uuid1) rpc')))
  /\ (forall rpc', Forall (reply_or_write_to h2) (trace (post_message st2 (VStr uuid2) rpc'))).
Proof.
  intros Hne1 Hne2 Hdiff Htag Hmeth Hm st2 h1 h2 ack.
  assert (Hl1 : sessions st2 !! uuid1 = Some {| sseRes := Some h1; initialized := false |}).
  { unfold st2. simpl. rewrite lookup_insert_ne by done. apply lookup_insert_eq. }
  assert (Hl2 : sessions st2 !! uuid2 = Some {| sseRes := Some h2; initialized := false |}).
  { unfold st2. simpl. apply lookup_insert_eq. }
  assert (Hacked : forall uuid sd h,
            uuid <> "" -> sessions st2 !! uuid = Some sd -> sseRes sd = Some h ->
            exists writes,
              trace (post_message st2 (VStr uuid) rpc) = ack :: writes
              /\ Forall (fun e => exists chunk, e = SseWrite h chunk) writes).
  { intros uuid sd h Hne Hl Hs. rewrite (post_message_found _ _ _ _ Hne Hl).
    pose proof (answer_effects st2 uuid sd rpc h Hs) as Heff.
    destruct (answer_trace st2 uuid sd rpc)
      as [[Ht _]|[Ht|(m & Hm' & [Ht|(h' & obj & Hs' & Ht & _)])]].
    - unfold answer in Ht.
      rewrite (prop_str_truthy _ _ _ Htag), Htag, Hmeth in Ht. simpl in Ht.
      destruct (String.eqb_spec method "") as [->|_]; [done|]. simpl in Ht.
      repeat case_match; discriminate.
    - unfold answer in Ht.
      rewrite (prop_str_truthy _ _ _ Htag), Htag, Hmeth in Ht. simpl in Ht.
      destruct (String.eqb_spec method "") as [->|_]; [done|]. simpl in Ht.
      repeat case_match; discriminate.
    - rewrite Hmeth in Hm'. injection Hm' as <-. exists []. split; [done | constructor].
    - rewrite Hmeth in Hm'. injection Hm' as <-. rewrite Hs in Hs'. injection Hs' as <-.
      exists (sse_message h obj). split; [done|].
      unfold sse_message. repeat (apply Forall_cons; split; [eauto|]). constructor. }
  split; [done|]. split; [done|]. split; [unfold h1, h2; lia|].
  split; [by apply (Hacked uuid1 _ h1 Hne1 Hl1)|].
  split; [by apply (Hacked uuid2 _ h2 Hne2 Hl2)|].
  split; intros rpc'.
  - rewrite (post_message_found _ _ _ _ Hne1 Hl1). by apply answer_effects.
  - rewrite (post_message_found _ _ _ _ Hne2 Hl2). by apply answer_effects.
Qed.

Lemma two_streams_are_served_apart_witness :
  let rpc := envelope (VStr "tools/list") VUndef in
  let ack := HttpJson 200 (VObj [ ("jsonrpc", VStr "2.0"); ("id", VNum 7);
                                  ("result", VObj [ ("ack", VStr "Received tools/list") ]) ]) in
  sessions two_stream_server !! example_uuid = Some {| sseRes := Some O; initialized := false |}
  /\ sessions two_stream_server !! other_uuid
     = Some {| sseRes := Some 1%nat; initialized := false |}
  /\ O <> 1%nat
  /\ (exists writes1,
        trace (post_message two_stream_server (VStr example_uuid) rpc) = ack :: writes1
        /\ Forall (fun e => exists chunk, e = SseWrite O chunk) writes1)
  /\ (exists writes2,
        trace (post_message two_stream_server (VStr other_uuid) rpc) = ack :: writes2
        /\ Forall (fun e => exists chunk, e = SseWrite 1%nat chunk) writes2)
  /\ (forall rpc',
        Forall (reply_or_write_to O)
          (trace (post_message two_stream_server (VStr example_uuid) rpc')))
  /\ (forall rpc',
        Forall (reply_or_write_to 1%nat)
          (trace (post_message two_stream_server (VStr other_uuid) rpc'))).
Proof.
  apply (two_streams_are_served_apart initial example_uuid other_uuid
           (envelope (VStr "tools/list") VUndef) "tools/list");
    [discriminate | discriminate | discriminate | reflexivity | reflexivity | discriminate].
Defined.

(** ** What goes on the wire *)

Lemma no_control_app (s1 s2 : string) :
  no_control (s1 ++ s2) = no_control s1 && no_control s2.
Proof.
  induction s1 as [|c s1 IH]; simpl; [done|]. rewrite IH. by rewrite andb_assoc.
Qed.

Lemma no_control_escape (c : ascii) : no_control (JSON.escape c) = true.
Proof. by destruct c as [[] [] [] [] [] [] [] []]. Qed.

Lemma no_control_quote (s : string) : no_control (JSON.quote s) = true.
Proof.
  unfold JSON.quote. rewrite !no_control_app. simpl. rewrite andb_true_r.
  induction s as [|c s IH]; simpl; [done|].
  by rewrite no_control_app, no_control_escape, IH.
Qed.

Lemma no_control_decimal (z : Z) : no_control (JS.decimal z) = true.
Proof.
  assert (Hu : forall d, no_control (NilEmpty.string_of_uint d) = true)
    by (induction d; simpl; done).
  assert (Hz : forall d, no_control (NilZero.string_of_uint d) = true)
    by (intros d; destruct d; try done; apply (Hu (_ d))).
  unfold JS.decimal, NilZero.string_of_int.
  destruct (Z.to_int z); simpl; by rewrite ?Hz.
Qed.

Lemma no_control_zeros (n : nat) : no_control (JS.zeros n) = true.
Proof. induction n as [|n IH]; simpl; done. Qed.

Lemma no_control_large (m : Z) : no_control (JS.large_to_string m) = true.
Proof.
  unfold JS.large_to_string.
  set (found := JS.shortest _ _ _).
  set (s := if Z.eqb (found.1 mod 10) 0 then _ else _).
  set (e := if Z.eqb (found.1 mod 10) 0 then _ else _).
  pose proof (no_control_decimal s) as Hds.
  destruct (Z.leb _ 21).
  - by rewrite no_control_app, Hds, no_control_zeros.
  - destruct (JS.decimal s) as [|d rest]; [done|].
    cbn [no_control] in Hds. apply andb_prop in Hds as [Hd Hrest].
    destruct rest as [|d' rest'].
    + cbn [no_control]. rewrite Hd, no_control_app. simpl. apply no_control_decimal.
    + cbn [no_control] in *. rewrite Hd, !no_control_app. cbn [no_control].
      rewrite Hrest. simpl. apply no_control_decimal.
Qed.

Lemma no_control_number (z : Z) : no_control (JS.number_to_string z) = true.
Proof.
  unfold JS.number_to_string. destruct (Z.ltb (Z.abs z) _); [apply no_control_decimal|].
  rewrite no_control_app, no_control_large. by destruct (Z.ltb z 0).
Qed.

Lemma no_control_join (sep : string) (parts : list string) :
  no_control sep = true -> Forall (fun p => no_control p = true) parts ->
  no_control (JS.join sep parts) = true.
Proof.
  intros Hsep. induction 1 as [|p parts Hp Hparts IH]; simpl; [done|].
  destruct parts as [|p' parts]; [done|].
  rewrite !no_control_app, Hp, Hsep. by apply IH.
Qed.

(** Induction on values, through the elements of arrays and the values of
    properties. *)
Lemma value_nested_ind (P : value -> Prop) :
  P VUndef -> P VNull -> (forall b, P (VBool b)) -> (forall z, P (VNum z)) -> P VNaN ->
  (forall s, P (VStr s)) ->
  (forall items, Forall P items -> P (VArr items)) ->
  (forall props, Forall (fun kv => P kv.2) props -> P (VObj props)) ->
  forall v, P v.
Proof.
  intros Hundef Hnull Hbool Hnum Hnan Hstr Harr Hobj.
  fix IH 1. intros [| |b|z| |s|items|props].
  - exact Hundef.
  - exact Hnull.
  - apply Hbool.
  - apply Hnum.
  - exact Hnan.
  - apply Hstr.
  - apply Harr. induction items as [|x items IHitems]; constructor;
      [apply IH | exact IHitems].
  - apply Hobj. induction props as [|[k x] props IHprops]; constructor;
      [apply IH | exact IHprops].
Qed.

(** [JSON.stringify] puts no control character in its output: those inside
    strings and property names are escaped. *)
Lemma stringify_no_control (v : value) :
  forall s, JSON.stringify v = Some s -> no_control s = true.
Proof.
  induction v as [| |b|z| |t|items IH|props IH] using value_nested_ind; intros s; simpl.
  - discriminate.
  - by intros [= <-].
  - destruct b; by intros [= <-].
  - intros [= <-]. apply no_control_number.
  - by intros [= <-].
  - intros [= <-]. apply no_control_quote.
  - intros [= <-]. rewrite !no_control_app. simpl. rewrite andb_true_r.
    apply no_control_join; [done|].
    induction IH as [|x items Hx _ IHitems]; constructor; [|done].
    destruct (JSON.stringify x) as [j|]; simpl; [by apply Hx | done].
  - intros [= <-]. rewrite !no_control_app. simpl. rewrite andb_true_r.
    apply no_control_join; [done|].
    induction IH as [|[k x] props Hx _ IHprops]; [constructor|].
    simpl in Hx. destruct (JSON.stringify x) as [j|]; [|done].
    constructor; [|done].
    rewrite !no_control_app, no_control_quote. simpl. by apply Hx.
Qed.

Lemma in_template_no_control (v : value) : no_control (JSON.in_template v) = true.
Proof.
  unfold JSON.in_template. destruct (JSON.stringify v) as [j|] eqn:Hj; simpl; [|done].
  by apply (stringify_no_control v).
Qed.

(** X13.  The events of [POST /message] keep the framing of server-sent
    events whatever text the caller sends.  Every chunk the handler writes is
    the line [event: message] or a [data:] line closed by a blank line, and
    the JSON between [data: ] and the two line feeds contains no control
    character, so no line feed or carriage return: a method, tool name,
    argument or id with line breaks in it cannot end the event early or start
    another one. *)
Theorem stream_chunks_keep_the_framing
    (st : server) (sessionId rpc : value) (h : handle) (chunk : string) :
  In (SseWrite h chunk) (trace (post_message st sessionId rpc)) ->
  chunk = "event: message" ++ JS.nl
  \/ exists json, chunk = "data: " ++ json ++ JS.nl ++ JS.nl /\ no_control json = true.
Proof.
  unfold post_message.
  destruct (negb (JS.truthy sessionId)); [intros [|[]]; discriminate|].
  destruct (sessions_get st sessionId) as [[sid sd]|]; [|intros [|[]]; discriminate].
  destruct (answer_trace st sid sd rpc)
    as [[-> _]|[->|(method & _ & [->|(h' & obj & _ & -> & _)])]]; simpl.
  - done.
  - intros [|[]]; discriminate.
  - intros [|[]]; discriminate.
  - intros [|[[= _ <-]|[[= _ <-]|[]]]]; [discriminate|by left|].
    right. exists (JSON.in_template obj). split; [done | apply in_template_no_control].
Qed.

Lemma stream_chunks_keep_the_framing_witness :
  let name := "x" ++ JS.nl ++ JS.nl ++ "event: endpoint" in
  let chunk :=
    "data: "
    ++ JSON.in_template
         (not_found_error (envelope (VStr "tools/call") (VObj [ ("name", VStr name) ]))
            ("No such tool '" ++ name ++ "'"))
    ++ JS.nl ++ JS.nl in
  chunk = "event: message" ++ JS.nl
  \/ exists json, chunk = "data: " ++ json ++ JS.nl ++ JS.nl /\ no_control json = true.
Proof.
  apply (stream_chunks_keep_the_framing example_server (VStr example_uuid)
           (envelope (VStr "tools/call")
              (VObj [ ("name", VStr ("x" ++ JS.nl ++ JS.nl ++ "event: endpoint")) ]))
           O).
  rewrite (post_message_registered _ _ _ example_server_reachable example_session).
  right. right. left. reflexivity.
Defined.

(** ** Closing and keeping alive *)

(** X14.  Closing a connection unregisters the session its listener
    captured and no other: in a reachable state, every session filed under
    another id is still registered afterwards, unchanged, and its own
    connection is still open. *)
Theorem close_leaves_other_sessions
    (st : server) (res : handle) (sid k : string) (sd : session) (h : handle) :
  reachable st -> listeners st !! res = Some sid ->
  k <> sid -> sessions st !! k = Some sd -> sseRes sd = Some h ->
  let st' := final (on_close st res) in
  sessions st' !! sid = None
  /\ sessions st' !! k = Some sd
  /\ listeners st' !! h = Some k.
Proof.
  intros Hr Hcap Hne Hk Hs st'.
  pose proof (wf_live st (reachable_streams_wf st Hr) k sd h Hk Hs) as Hlive.
  unfold st', on_close. rewrite Hcap. simpl.
  split; [apply lookup_delete_eq|]. split.
  - by rewrite lookup_delete_ne.
  - rewrite lookup_delete_ne; [done|]. intros <-. congruence.
Qed.

Lemma close_leaves_other_sessions_witness :
  let st' := final (on_close two_stream_server O) in
  sessions st' !! example_uuid = None
  /\ sessions st' !! other_uuid = Some {| sseRes := Some 1%nat; initialized := false |}
  /\ listeners st' !! 1%nat = Some other_uuid.
Proof.
  apply (close_leaves_other_sessions two_stream_server O example_uuid other_uuid
           {| sseRes := Some 1%nat; initialized := false |} 1%nat
           two_stream_server_reachable);
    [reflexivity | discriminate | reflexivity | reflexivity].
Defined.

(** X15.  A registered session is kept alive: in a reachable state the
    timer of the stream a session holds has not been cleared, so each firing
    writes one [heartbeat] event with the current time to that stream and
    changes nothing. *)
Theorem heartbeat_reaches_registered_stream
    (st : server) (k : string) (sd : session) (h : handle) (now : Z) :
  reachable st -> sessions st !! k = Some sd -> sseRes sd = Some h ->
  heartbeat st h now
  = {| final := st;
       trace := [ SseWrite h ("event: heartbeat" ++ JS.nl ++ "data: "
                              ++ JS.number_to_string now ++ JS.nl ++ JS.nl) ];
       completed := true |}.
Proof.
  intros Hr Hk Hs.
  pose proof (wf_live st (reachable_streams_wf st Hr) k sd h Hk Hs) as Hlive.
  unfold heartbeat. by rewrite Hlive.
Qed.

Lemma heartbeat_reaches_registered_stream_witness :
  heartbeat two_stream_server 1%nat 1700000000000
  = {| final := two_stream_server;
       trace := [ SseWrite 1%nat ("event: heartbeat" ++ JS.nl ++ "data: "
                                  ++ "1700000000000" ++ JS.nl ++ JS.nl) ];
       completed := true |}.
Proof.
  exact (heartbeat_reaches_registered_stream two_stream_server other_uuid
           {| sseRes := Some 1%nat; initialized := false |} 1%nat 1700000000000
           two_stream_server_reachable eq_refl eq_refl).
Defined.

(** Numbers are printed as JavaScript prints them: from 2^53 on only the
    digits that tell the double apart, here for a method and a tool name of
    2^60. *)
Example large_numbers_are_printed_short :
  trace (post_message example_server (VStr example_uuid)
           (envelope (VNum (2 ^ 60)) VUndef))
  = HttpJson 200 (VObj [ ("jsonrpc", VStr "2.0"); ("id", VNum 7);
                         ("result", VObj [ ("ack", VStr "Received 1152921504606847000") ]) ])
    :: sse_message O
         (not_found_error (envelope (VNum (2 ^ 60)) VUndef)
            "Method '1152921504606847000' not recognized")
  /\ JS.to_string (VNum (2 ^ 70)) = Some "1.1805916207174113e+21"
  /\ JSON.stringify (VNum (2 ^ 64)) = Some "18446744073709552000".
Proof.
  split; [|split; reflexivity].
  rewrite (post_message_registered _ _ _ example_server_reachable example_session).
  reflexivity.
Qed.
